(** * Skaffold builder plugins: the Bazel builder and the Google Cloud Build
      dependency resolver

    A shallow embedding of [pkg/skaffold/build/bazel/bazel.go] and of the
    [DependenciesForArtifact] method of the Google Cloud Build builder.

    Artifacts are handed around by pointer ([*latest.Artifact]) and
    [setArtifact] writes through that pointer, so the model keeps a store of
    artifacts indexed by location and the functions thread a [World] through
    their calls.  Collaborators that live outside the two source files (the
    YAML decoder, the dependency enumerators, the local builder, the cluster
    context lookup) are the fields of the [Collaborators] interface; every call
    to one of them is recorded in the world's call log. *)

From Stdlib Require Import Strings.Byte Strings.Ascii Strings.String.
From stdpp Require Import base option list strings gmap.

(** ** Errors ([github.com/pkg/errors]) *)

(** An error value is a message ([errors.New], [errors.Errorf]) or a message
    laid over a cause ([errors.Wrap], [errors.Wrapf]). *)
Inductive error : Type :=
  | New (msg : string)
  | Wrap (cause : error) (msg : string).

(** The [Error()] method: a wrapped error prints its own message, a colon and
    the message of its cause. *)
Fixpoint Error (e : error) : string :=
  match e with
  | New msg => msg
  | Wrap cause msg => msg +:+ ": " +:+ Error cause
  end.

(** [errors.Cause]: the innermost error of a chain of wraps. *)
Fixpoint Cause (e : error) : error :=
  match e with
  | New msg => New msg
  | Wrap cause _ => Cause cause
  end.

(** [s] occurs inside [t]. *)
Definition mentions (t s : string) : Prop :=
  exists pre post : string, t = pre +:+ s +:+ post.

(** [e] is [cause], or wraps it at some depth. *)
Inductive wraps (cause : error) : error -> Prop :=
  | wraps_here : wraps cause cause
  | wraps_under (e : error) (msg : string) : wraps cause e -> wraps cause (Wrap e msg).

(** ** Schema types ([pkg/skaffold/schema/latest])

    The declarations of the schema are not among the source files.  The
    records below keep the fields that the two files read or write. *)

(** Modelled from the spec: [latest.BazelArtifact], the Bazel build-target
    configuration; its required field is the build target. *)
Record BazelArtifact : Type := { BuildTarget : string }.

(** Modelled from the spec: [latest.DockerArtifact], the Docker build
    configuration.  The code only hands it to the enumerator. *)
Record DockerArtifact : Type := { DockerfilePath : string }.

(** Modelled from the spec: [latest.ArtifactType], embedded in [Artifact].
    Each payload is a pointer, [None] is the nil pointer. *)
Record ArtifactType : Type := {
  DockerArtifact_ : option DockerArtifact;
  BazelArtifact_ : option BazelArtifact
}.

(** Modelled from the spec: [latest.BuilderPlugin], the backend tag and the
    opaque byte blob of the configuration. *)
Record BuilderPlugin : Type := {
  PluginName : string;
  Contents : list byte
}.

(** Modelled from the spec: [latest.Artifact].  [BuilderPlugin] is a pointer. *)
Record Artifact : Type := {
  ImageName : string;
  Workspace : string;
  ArtifactType_ : ArtifactType;
  BuilderPlugin_ : option BuilderPlugin
}.

(** [artifact.ArtifactType.BazelArtifact = a]. *)
Definition set_BazelArtifact (artifact : Artifact) (a : option BazelArtifact) : Artifact :=
  {| ImageName := ImageName artifact;
     Workspace := Workspace artifact;
     ArtifactType_ :=
       {| DockerArtifact_ := DockerArtifact_ (ArtifactType_ artifact);
          BazelArtifact_ := a |};
     BuilderPlugin_ := BuilderPlugin_ artifact |}.

(** A pointer to an artifact: [None] is nil, [Some l] a location of the store. *)
Definition loc : Type := nat.
Definition ptr : Type := option loc.

(** ** The world: the artifact store, the receiver and the log of
       collaborator calls *)

Inductive Call : Type :=
  | CallUnmarshalStrict (contents : list byte)
  | CallBazelGetDependencies (workspace : string) (a : BazelArtifact)
  | CallDockerGetDependencies (workspace : string) (a : option DockerArtifact)
  | CallCurrentContext
  | CallNewBuilder
  | CallBuild (artifacts : list ptr).

(** [self] is the builder a method is called on (its receiver [b]). *)
Record World (B : Type) : Type := {
  store : gmap loc Artifact;
  self : B;
  calls : list Call
}.
Arguments store {B} _.
Arguments self {B} _.
Arguments calls {B} _.

(** The world after a logged call, and after a write to the store. *)
Definition logged {B : Type} (c : Call) (w : World B) : World B :=
  {| store := store w; self := self w; calls := calls w ++ [c] |}.

Definition stored {B : Type} (l : loc) (a : Artifact) (w : World B) : World B :=
  {| store := <[l := a]> (store w); self := self w; calls := calls w |}.

(** A Go call either returns or panics (nil pointer dereference). *)
Inductive Res (A : Type) : Type :=
  | Val (a : A)
  | Panic.
Arguments Val {A} a.
Arguments Panic {A}.

Definition M (B A : Type) : Type := World B -> Res A * World B.

Definition ret {B A : Type} (a : A) : M B A := fun w => (Val a, w).

Definition bind {B A A' : Type} (m : M B A) (f : A -> M B A') : M B A' :=
  fun w =>
    match m w with
    | (Val a, w') => f a w'
    | (Panic, w') => (Panic, w')
    end.

Definition panic {B A : Type} : M B A := fun w => (Panic, w).

Declare Scope go_scope.
Delimit Scope go_scope with go.
Notation "x <- m ;; k" := (bind m (fun x => k))
  (at level 100, m at next level, right associativity) : go_scope.
Notation "m ;;; k" := (bind m (fun _ => k))
  (at level 100, right associativity) : go_scope.
Local Open Scope go_scope.

(** Dereference of an artifact pointer. *)
Definition deref {B : Type} (p : ptr) : M B Artifact :=
  fun w =>
    match p with
    | None => (Panic, w)
    | Some l =>
        match store w !! l with
        | Some a => (Val a, w)
        | None => (Panic, w)
        end
    end.

(** Write through an artifact pointer. *)
Definition assign {B : Type} (p : ptr) (a : Artifact) : M B unit :=
  fun w =>
    match p with
    | None => (Panic, w)
    | Some l => (Val tt, stored l a w)
    end.

(** Dereference of any other pointer. *)
Definition deref_opt {B A : Type} (o : option A) : M B A :=
  match o with
  | Some a => ret a
  | None => panic
  end.

(** Read the receiver. *)
Definition this {B : Type} : M B B := fun w => (Val (self w), w).

(** Record a collaborator call. *)
Definition log {B : Type} (c : Call) : M B unit :=
  fun w => (Val tt, logged c w).

(** ** Paths (Go's [path/filepath] on a Unix system)

    The package belongs to Go's standard library.  [util.AbsolutePaths]
    below is stated with its [IsAbs] and [Join]. *)

Module filepath.

Definition Separator : ascii := "/"%char.

Definition is_sep (c : ascii) : bool := bool_decide (c = Separator).

(** [IsAbs]: the path begins with the separator. *)
Definition IsAbs (path : string) : bool :=
  match path with
  | String c _ => is_sep c
  | EmptyString => false
  end.

(** The elements of a path: the pieces between separators. *)
Fixpoint elements (path : string) : list string :=
  match path with
  | EmptyString => [EmptyString]
  | String c rest =>
      if is_sep c then EmptyString :: elements rest
      else
        match elements rest with
        | e :: es => String c e :: es
        | [] => [String c EmptyString]
        end
  end.

(** The output buffer of [Clean] seen element by element: the [".."]
    elements that could not be cancelled (relative paths only), then the
    real elements, last one first. *)
Record buf : Type := { dotdots : nat; elems : list string }.

Definition step (rooted : bool) (b : buf) (e : string) : buf :=
  if bool_decide (e = "") then b
  else if bool_decide (e = ".") then b
  else if bool_decide (e = "..") then
    match elems b with
    | _ :: es => {| dotdots := dotdots b; elems := es |}
    | [] =>
        if rooted then b
        else {| dotdots := S (dotdots b); elems := [] |}
    end
  else {| dotdots := dotdots b; elems := e :: elems b |}.

Fixpoint join_elements (es : list string) : string :=
  match es with
  | [] => ""
  | [e] => e
  | e :: es' => e +:+ "/" +:+ join_elements es'
  end.

Definition buf_elements (b : buf) : list string :=
  replicate (dotdots b) ".." ++ rev (elems b).

(** [Clean]: the shortest path equivalent to [path] by lexical processing. *)
Definition Clean (path : string) : string :=
  if bool_decide (path = "") then "."
  else
    let rooted := IsAbs path in
    let b := fold_left (step rooted) (elements path) {| dotdots := 0; elems := [] |} in
    let out := (if rooted then "/" else "") +:+ join_elements (buf_elements b) in
    if bool_decide (out = "") then "." else out.

(** [Join] of two elements: empty elements are ignored, the rest is joined
    with the separator and cleaned. *)
Definition Join (a b : string) : string :=
  if bool_decide (a = "") then
    if bool_decide (b = "") then "" else Clean b
  else Clean (a +:+ "/" +:+ b).

End filepath.

(** ** Constants ([pkg/skaffold/constants]) *)

Module constants.

(** Modelled from the spec: the constants package is not among the source
    files; the execution environment of the local machine is named
    ["local"]. *)
Definition Local : string := "local".

End constants.

(** ** Environment values *)

(** A value of the generic properties bag ([interface{}]), as a configuration
    file can hold it. *)
#[warnings="-register-all"]
Inductive Value : Type :=
  | VNull
  | VBool (b : bool)
  | VNumber (n : Z)
  | VString (s : string)
  | VList (vs : list Value)
  | VMap (kvs : list (string * Value)).

(** Modelled from the spec: [latest.ExecutionEnvironment], a name and a
    generic key/value bag; [None] is the nil map. *)
Record ExecutionEnvironment : Type := {
  Name : string;
  Properties : option (list (string * Value))
}.

(** Modelled from the spec: [config.SkaffoldOptions], of which the builder
    reads the skip-tests flag. *)
Record SkaffoldOptions : Type := { SkipTests : bool }.

(** ** Collaborators

    The functions and types the two builders use from outside their own
    files.  A Go function that returns [(x, err)] and whose caller looks at
    [err] first is a sum; [local_Build]'s pair is returned as it is. *)
Class Collaborators : Type := {
  (** [context.Context], [io.Writer], [tag.ImageTags], [build.Artifact] *)
  Ctx : Type;
  Writer : Type;
  ImageTags : Type;
  BuildResult : Type;
  (** [latest.LocalBuild] with its zero value, and the decoding of one
      property of the bag into it *)
  LocalBuild : Type;
  LocalBuild_zero : LocalBuild;
  LocalBuild_field : string -> Value -> LocalBuild -> error + LocalBuild;
  (** [yaml.UnmarshalStrict(contents, &a)] for [a *latest.BazelArtifact]:
      an error, or the pointer it leaves in [a] *)
  yaml_UnmarshalStrict : list byte -> error + option BazelArtifact;
  (** the document has a field that [latest.BazelArtifact] does not have;
      the strict decoder's contract is that it refuses such a document *)
  yaml_unknown_field : list byte -> bool;
  yaml_strict :
    forall contents : list byte,
      yaml_unknown_field contents = true ->
      exists err : error, yaml_UnmarshalStrict contents = inl err;
  (** [bazel.GetDependencies] and [docker.GetDependencies]: the answer to
      one call, in the context the call is made in *)
  bazel_GetDependencies : Ctx -> string -> BazelArtifact -> error + list string;
  docker_GetDependencies : Ctx -> string -> option DockerArtifact -> error + list string;
  (** [kubectx.CurrentContext] *)
  kubectx_CurrentContext : error + string;
  (** the working directory of the process, a rooted path *)
  os_Getwd : string;
  os_Getwd_rooted : filepath.IsAbs os_Getwd = true;
  (** [local.NewBuilder] and the [Build] method of the builder it makes;
      the delegated builder receives the artifact pointers and may write
      through them *)
  LocalBuilder : Type;
  local_NewBuilder : LocalBuild -> string -> bool -> error + LocalBuilder;
  local_Build :
    LocalBuilder -> Ctx -> Writer -> ImageTags -> gmap loc Artifact -> list ptr ->
    gmap loc Artifact * (list BuildResult * option error)
}.

(** ** Utilities ([pkg/skaffold/util]) *)

Module util.

Section AbsolutePaths.
Context `{Collaborators}.

(** The workspace as an absolute path: a relative workspace is taken from
    the working directory. *)
Definition anchor (workspace : string) : string :=
  if filepath.IsAbs workspace then workspace else filepath.Join os_Getwd workspace.

(** Modelled from the spec: [util.AbsolutePaths] is not among the source
    files.  Every path the enumerator returned is normalized to an absolute
    path anchored at the workspace: a relative path is joined to the
    workspace, an absolute one is passed through. *)
Definition AbsolutePaths (workspace : string) (paths : list string) : list string :=
  map (fun path =>
         if filepath.IsAbs path then path else filepath.Join (anchor workspace) path)
      paths.

End AbsolutePaths.

Section CloneThroughJSON.
Context `{Collaborators}.

(** The decode half of the conversion: the properties are laid, one by
    one, over the zero value of the target. *)
Fixpoint decode_fields (bag : list (string * Value)) (l : LocalBuild) : error + LocalBuild :=
  match bag with
  | [] => inr l
  | (k, v) :: bag' =>
      match LocalBuild_field k v l with
      | inl e => inl e
      | inr l' => decode_fields bag' l'
      end
  end.

(** Modelled from the spec: [util.CloneThroughJSON] is not among the
    source files.  It is a structural re-encode and decode of the
    properties into the target schema, by field name: unknown source
    fields are ignored and missing target fields keep their zero value
    (both inside [LocalBuild_field]).  A nil bag encodes as [null] and
    leaves the target pointer nil. *)
Definition CloneThroughJSON (old : option (list (string * Value))) : error + option LocalBuild :=
  match old with
  | None => inr None
  | Some bag =>
      match decode_fields bag LocalBuild_zero with
      | inl e => inl e
      | inr l => inr (Some l)
      end
  end.

End CloneThroughJSON.

End util.

(** ** The Bazel builder ([pkg/skaffold/build/bazel]) *)

Module bazel.

(** [Builder] builds artifacts with Bazel; both fields are pointers. *)
Record Builder : Type := {
  opts : option SkaffoldOptions;
  env : option ExecutionEnvironment
}.

(** [NewBuilder] creates a new Builder. *)
Definition NewBuilder : Builder := {| opts := None; env := None |}.

(** [Init] stores skaffold options and the execution environment. *)
Definition Init (o : option SkaffoldOptions) (e : option ExecutionEnvironment) : M Builder unit :=
  fun w =>
    (Val tt, {| store := store w; self := {| opts := o; env := e |}; calls := calls w |}).

(** [Labels] are labels specific to Bazel.  The key, [constants.Labels.Builder],
    is declared outside the source files and is a parameter here. *)
Definition Labels (builderKey : string) : gmap string string :=
  {[ builderKey := "bazel" ]}.

Section Methods.
Context `{Collaborators}.

Definition setArtifact (artifact : ptr) : M Builder (option error) :=
  art <- deref artifact ;;
  match BazelArtifact_ (ArtifactType_ art) with
  | Some _ => ret None
  | None =>
      plugin <- deref_opt (BuilderPlugin_ art) ;;
      log (CallUnmarshalStrict (Contents plugin)) ;;;
      match yaml_UnmarshalStrict (Contents plugin) with
      | inl err => ret (Some (Wrap err "unmarshalling bazel artifact"))
      | inr None => ret (Some (New "artifact is nil"))
      | inr (Some a) =>
          if bool_decide (BuildTarget a = "") then
            ret (Some (New (ImageName art +:+ " must have an associated build target")))
          else
            assign artifact (set_BazelArtifact art (Some a)) ;;;
            ret None
      end
  end.

(** [DependenciesForArtifact] returns the dependencies for this bazel
    artifact. *)
Definition DependenciesForArtifact (ctx : Ctx) (artifact : ptr)
  : M Builder (list string * option error) :=
  r <- setArtifact artifact ;;
  match r with
  | Some err => ret ([], Some err)
  | None =>
      art <- deref artifact ;;
      match BazelArtifact_ (ArtifactType_ art) with
      | None => ret ([], Some (New "bazel artifact is nil"))
      | Some a =>
          log (CallBazelGetDependencies (Workspace art) a) ;;;
          match bazel_GetDependencies ctx (Workspace art) a with
          | inl err => ret ([], Some (Wrap err "getting bazel dependencies"))
          | inr paths => ret (util.AbsolutePaths (Workspace art) paths, None)
          end
      end
  end.

(** The loop of [local] over the artifacts: the first failure ends it. *)
Fixpoint setArtifacts (artifacts : list ptr) : M Builder (option error) :=
  match artifacts with
  | [] => ret None
  | a :: rest =>
      r <- setArtifact a ;;
      match r with
      | Some err =>
          art <- deref a ;;
          ret (Some (Wrap err ("setting artifact " +:+ ImageName art)))
      | None => setArtifacts rest
      end
  end.

(** The first step of [local]: the environment's properties become the
    [LocalBuild] configuration, the zero value when the clone left the
    pointer nil. *)
Definition adapt (e : ExecutionEnvironment) : error + LocalBuild :=
  match util.CloneThroughJSON (Properties e) with
  | inl err => inl (Wrap err "converting execution env to localBuild struct")
  | inr None => inr LocalBuild_zero
  | inr (Some l) => inr l
  end.

(** The call of the delegated builder. *)
Definition delegate (builder : LocalBuilder) (ctx : Ctx) (out : Writer) (tags : ImageTags)
    (artifacts : list ptr) : M Builder (list BuildResult * option error) :=
  fun w =>
    let '(st, r) := local_Build builder ctx out tags (store w) artifacts in
    (Val r, {| store := st; self := self w; calls := calls w ++ [CallBuild artifacts] |}).

(** [local] sets any necessary defaults and then builds artifacts with
    bazel locally. *)
Definition local (ctx : Ctx) (out : Writer) (tags : ImageTags) (artifacts : list ptr)
  : M Builder (list BuildResult * option error) :=
  b <- this ;;
  e <- deref_opt (env b) ;;
  match adapt e with
  | inl err => ret ([], Some err)
  | inr l =>
      log CallCurrentContext ;;;
      match kubectx_CurrentContext with
      | inl err => ret ([], Some (Wrap err "getting current cluster context"))
      | inr kubeContext =>
          o <- deref_opt (opts b) ;;
          log CallNewBuilder ;;;
          match local_NewBuilder l kubeContext (SkipTests o) with
          | inl err => ret ([], Some (Wrap err "getting local builder"))
          | inr builder =>
              r <- setArtifacts artifacts ;;
              match r with
              | Some err => ret ([], Some err)
              | None => delegate builder ctx out tags artifacts
              end
          end
      end
  end.

(** [Build] is responsible for building artifacts in their respective
    execution environments. *)
Definition Build (ctx : Ctx) (out : Writer) (tags : ImageTags) (artifacts : list ptr)
  : M Builder (list BuildResult * option error) :=
  b <- this ;;
  e <- deref_opt (env b) ;;
  if bool_decide (Name e = constants.Local) then local ctx out tags artifacts
  else
    ret ([], Some (New (Name e +:+ " is not a supported environment for builder bazel"))).

End Methods.

End bazel.

(** ** The Google Cloud Build builder ([pkg/skaffold/build/gcb]) *)

Module gcb.

(** [Builder] builds artifacts with Google Cloud Build; the embedded
    [*latest.GoogleCloudBuild] is not read by the method below. *)
Record Builder : Type := { skipTests : bool }.

(** [Labels] are labels specific to Google Cloud Build; the key is the same
    parameter as for the Bazel builder. *)
Definition Labels (builderKey : string) : gmap string string :=
  {[ builderKey := "google-cloud-build" ]}.

Section Methods.
Context `{Collaborators}.

(** [DependenciesForArtifact] returns the Dockerfile dependencies for
    this gcb artifact. *)
Definition DependenciesForArtifact (ctx : Ctx) (a : ptr)
  : M Builder (list string * option error) :=
  art <- deref a ;;
  log (CallDockerGetDependencies (Workspace art) (DockerArtifact_ (ArtifactType_ art))) ;;;
  match docker_GetDependencies ctx (Workspace art) (DockerArtifact_ (ArtifactType_ art)) with
  | inl err => ret ([], Some (Wrap err ("getting dependencies for " +:+ ImageName art)))
  | inr paths => ret (util.AbsolutePaths (Workspace art) paths, None)
  end.

End Methods.

End gcb.

(** ** Observing a run *)

(** A decidable search for [s] inside [t], to refute [mentions] on concrete
    strings. *)
Fixpoint occurs (s t : string) : bool :=
  String.prefix s t ||
  match t with
  | EmptyString => false
  | String _ t' => occurs s t'
  end.

Definition is_build (c : Call) : bool :=
  match c with CallBuild _ => true | _ => false end.

Definition is_enumeration (c : Call) : bool :=
  match c with
  | CallBazelGetDependencies _ _ | CallDockerGetDependencies _ _ => true
  | _ => false
  end.

Definition is_decode (c : Call) : bool :=
  match c with CallUnmarshalStrict _ => true | _ => false end.

(** The calls of one kind in a log. *)
Definition count (kind : Call -> bool) (cs : list Call) : nat :=
  length (filter (fun c => kind c = true) cs).

(** The world in which [local] starts its loop: the cluster context has
    been read and the local builder made. *)
Definition prepared (w : World bazel.Builder) : World bazel.Builder :=
  logged CallNewBuilder (logged CallCurrentContext w).

(** The pointer [p] leads to an artifact that carries a Bazel payload. *)
Definition materialized (st : gmap loc Artifact) (p : ptr) : Prop :=
  exists l art a, p = Some l /\ st !! l = Some art /\ BazelArtifact_ (ArtifactType_ art) = Some a.

(** ** A concrete set of collaborators

    The collaborators of the specification's scenarios: a decoder for flat
    documents of [key: value] lines whose only field is [buildTarget], an
    enumerator that knows the target [//:app], a cluster context and a local
    builder that tags every image [latest]. *)

Module Scenario.

Definition quote : ascii := ascii_of_nat 34.
Definition newline : ascii := ascii_of_nat 10.

(** The pieces of [s] between occurrences of [sep]. *)
Fixpoint split (sep : ascii) (s : string) : list string :=
  match s with
  | EmptyString => [EmptyString]
  | String c rest =>
      if bool_decide (c = sep) then EmptyString :: split sep rest
      else
        match split sep rest with
        | e :: es => String c e :: es
        | [] => [String c EmptyString]
        end
  end.

(** A line [key: value] cut at its first colon. *)
Fixpoint cut (line : string) : option (string * string) :=
  match line with
  | EmptyString => None
  | String c rest =>
      if bool_decide (c = ":"%char) then Some (EmptyString, rest)
      else
        match cut rest with
        | Some (k, v) => Some (String c k, v)
        | None => None
        end
  end.

Fixpoint drop_last (s : string) : string :=
  match s with
  | EmptyString => EmptyString
  | String _ EmptyString => EmptyString
  | String c rest => String c (drop_last rest)
  end.

(** A scalar: one leading blank dropped, surrounding quotes removed. *)
Definition scalar (v : string) : string :=
  let v := match v with String " " v' => v' | _ => v end in
  match v with
  | String c rest => if bool_decide (c = quote) then drop_last rest else v
  | EmptyString => v
  end.

Fixpoint fields (lines : list string) : option (list (string * string)) :=
  match lines with
  | [] => Some []
  | line :: rest =>
      if bool_decide (line = "") then fields rest
      else
        match cut line, fields rest with
        | Some (k, v), Some kvs => Some ((k, scalar v) :: kvs)
        | _, _ => None
        end
  end.

Definition document (contents : list byte) : option (list (string * string)) :=
  fields (split newline (string_of_list_byte contents)).

Definition known (k : string) : bool := bool_decide (k = "buildTarget").

Definition unknown_field (contents : list byte) : bool :=
  match document contents with
  | Some kvs => existsb (fun kv => negb (known (fst kv))) kvs
  | None => false
  end.

Definition UnmarshalStrict (contents : list byte) : error + option BazelArtifact :=
  if unknown_field contents then
    inl (New "yaml: unmarshal errors: field not found in type latest.BazelArtifact")
  else
    match document contents with
    | None => inl (New "yaml: could not find expected ':'")
    | Some [] => inr None
    | Some kvs =>
        inr (Some {| BuildTarget :=
                       match find (fun kv => known (fst kv)) kvs with
                       | Some (_, v) => v
                       | None => ""
                       end |})
    end.

Lemma UnmarshalStrict_strict (contents : list byte) :
  unknown_field contents = true ->
  exists err : error, UnmarshalStrict contents = inl err.
Proof. intros Hu. unfold UnmarshalStrict. rewrite Hu. eauto. Qed.

Record Options : Type := { Push : bool; UseDockerCLI : bool }.

Definition option_field (k : string) (v : Value) (l : Options) : error + Options :=
  if bool_decide (k = "push") then
    match v with
    | VBool b => inr {| Push := b; UseDockerCLI := UseDockerCLI l |}
    | _ => inl (New "json: cannot unmarshal into Go struct field LocalBuild.push of type bool")
    end
  else if bool_decide (k = "useDockerCLI") then
    match v with
    | VBool b => inr {| Push := Push l; UseDockerCLI := b |}
    | _ => inl (New "json: cannot unmarshal into Go struct field LocalBuild.useDockerCLI of type bool")
    end
  else inr l.

Definition GetDependencies (workspace : string) (a : BazelArtifact) : error + list string :=
  if bool_decide (BuildTarget a = "//:app") then inr ["main.go"; "BUILD"]
  else inl (New "bazel query failed").

Definition DockerDependencies (workspace : string) (a : option DockerArtifact) : error + list string :=
  match a with
  | Some d => inr [DockerfilePath d; "/etc/ssl/certs"]
  | None => inl (New "reading dockerfile failed")
  end.

Definition tagged (st : gmap loc Artifact) (p : ptr) : option string :=
  match p with
  | Some l => (fun a => ImageName a +:+ ":latest") <$> st !! l
  | None => None
  end.

#[export] Instance collaborators : Collaborators := {|
  Ctx := unit;
  Writer := unit;
  ImageTags := unit;
  BuildResult := string;
  LocalBuild := Options;
  LocalBuild_zero := {| Push := false; UseDockerCLI := false |};
  LocalBuild_field := option_field;
  yaml_UnmarshalStrict := UnmarshalStrict;
  yaml_unknown_field := unknown_field;
  yaml_strict := UnmarshalStrict_strict;
  bazel_GetDependencies := fun _ => GetDependencies;
  docker_GetDependencies := fun _ => DockerDependencies;
  kubectx_CurrentContext := inr "minikube";
  os_Getwd := "/home/dev";
  os_Getwd_rooted := eq_refl;
  LocalBuilder := Options * string * bool;
  local_NewBuilder := fun l k skip => inr (l, k, skip);
  local_Build := fun _ _ _ _ st artifacts => (st, (omap (tagged st) artifacts, None))
|}.

(** A context, an output sink and tag assignments for the calls below. *)
Definition ctx : Ctx := tt.
Definition out : Writer := tt.
Definition tags : ImageTags := tt.

(** The artifact of the scenarios, before materialization. *)
Definition artifact (name workspace : string) (contents : list byte) : Artifact :=
  {| ImageName := name;
     Workspace := workspace;
     ArtifactType_ := {| DockerArtifact_ := None; BazelArtifact_ := None |};
     BuilderPlugin_ := Some {| PluginName := "bazel"; Contents := contents |} |}.

Definition app : Artifact := artifact "app" "/src" (list_byte_of_string "buildTarget: //:app").

(** [buildTarget:] followed by an empty quoted string. *)
Definition untargeted : Artifact :=
  artifact "app" "/src" (list_byte_of_string "buildTarget: " ++ [x22; x22]).

Definition misspelt : Artifact :=
  artifact "web" "/src" (list_byte_of_string "buildTraget: //:web").

(** The same artifact under a relative workspace. *)
Definition relative : Artifact :=
  artifact "app" "src" (list_byte_of_string "buildTarget: //:app").

(** An artifact whose target the enumerator does not know. *)
Definition missing : Artifact :=
  artifact "app" "/src" (list_byte_of_string "buildTarget: //:missing").

(** An artifact that arrives with a payload already set. *)
Definition prepopulated (target : string) : Artifact :=
  set_BazelArtifact app (Some {| BuildTarget := target |}).

Definition world {B : Type} (b : B) (arts : list Artifact) : World B :=
  {| store := list_to_map (imap (fun i a => (i, a)) arts); self := b; calls := [] |}.

Definition builder (name : string) : bazel.Builder :=
  {| bazel.opts := Some {| SkipTests := false |};
     bazel.env := Some {| Name := name; Properties := None |} |}.

(** The artifacts [arts] at the locations 0, 1, ..., under a Bazel builder
    initialized for the local environment. *)
Definition local_world (arts : list Artifact) : World bazel.Builder :=
  world (builder "local") arts.

End Scenario.

(** * Properties *)


(** ** Strings and errors *)

Lemma append_cons (x : ascii) (a b : string) : String x a +:+ b = String x (a +:+ b).
Proof. reflexivity. Qed.

Lemma append_assoc (a b c : string) : (a +:+ b) +:+ c = a +:+ (b +:+ c).
Proof.
  induction a as [|x a IH]; [reflexivity|].
  rewrite !append_cons. f_equal. exact IH.
Qed.

Lemma mentions_prefix (s post : string) : mentions (s +:+ post) s.
Proof. exists "", post. reflexivity. Qed.

Lemma mentions_infix (pre s post : string) : mentions ((pre +:+ s) +:+ post) s.
Proof. exists pre, post. apply append_assoc. Qed.

Lemma wraps_Wrap (e : error) (msg : string) : wraps e (Wrap e msg).
Proof. apply wraps_under, wraps_here. Qed.

Lemma prefix_append (s post : string) : String.prefix s (s +:+ post) = true.
Proof.
  induction s as [|c s IH].
  - now destruct post.
  - rewrite append_cons. simpl.
    destruct (Ascii.ascii_dec c c); [exact IH | congruence].
Qed.

Lemma occurs_unfold (s t : string) :
  occurs s t =
    String.prefix s t || match t with EmptyString => false | String _ t' => occurs s t' end.
Proof. destruct t; reflexivity. Qed.

Lemma mentions_occurs (t s : string) : mentions t s -> occurs s t = true.
Proof.
  intros (pre & post & ->). induction pre as [|c pre IH].
  - change ("" +:+ s +:+ post) with (s +:+ post).
    rewrite occurs_unfold, prefix_append. reflexivity.
  - rewrite append_cons, occurs_unfold, IH. apply orb_true_r.
Qed.

Ltac go_unfold :=
  unfold bazel.setArtifact, bazel.DependenciesForArtifact, gcb.DependenciesForArtifact,
    bazel.delegate, bind, deref, deref_opt, assign, log, this, ret, panic,
    logged, stored in *; simpl in *.

Section Materializer.
Context `{Collaborators}.
Implicit Types (w : World bazel.Builder) (l : loc) (art : Artifact).

(** An artifact that already carries its Bazel payload is left alone. *)
Lemma setArtifact_materialized l art a w :
  store w !! l = Some art ->
  BazelArtifact_ (ArtifactType_ art) = Some a ->
  bazel.setArtifact (Some l) w = (Val None, w).
Proof. intros Hl Ha. go_unfold. now rewrite Hl, Ha. Qed.

(** What [setArtifact] does to an artifact without payload, by the outcome
    of the decode. *)
Lemma setArtifact_decodes l art plugin w :
  store w !! l = Some art ->
  BazelArtifact_ (ArtifactType_ art) = None ->
  BuilderPlugin_ art = Some plugin ->
  bazel.setArtifact (Some l) w =
    let w' := logged (CallUnmarshalStrict (Contents plugin)) w in
    match yaml_UnmarshalStrict (Contents plugin) with
    | inl err => (Val (Some (Wrap err "unmarshalling bazel artifact")), w')
    | inr None => (Val (Some (New "artifact is nil")), w')
    | inr (Some a) =>
        if bool_decide (BuildTarget a = "") then
          (Val (Some (New (ImageName art +:+ " must have an associated build target"))), w')
        else (Val None, stored l (set_BazelArtifact art (Some a)) w')
    end.
Proof.
  intros Hl Ha Hp. go_unfold. rewrite Hl, Ha, Hp. simpl.
  destruct (yaml_UnmarshalStrict (Contents plugin)) as [err|[a|]]; try reflexivity.
  now destruct (bool_decide (BuildTarget a = "")).
Qed.

(** The outcomes of [setArtifact]: a panic on a nil pointer or a nil plugin,
    else one of the two lemmas above applies. *)
Lemma setArtifact_cases (p : ptr) w :
  (bazel.setArtifact p w = (Panic, w)) \/
  (exists l art, p = Some l /\ store w !! l = Some art /\
     ((exists a, BazelArtifact_ (ArtifactType_ art) = Some a) \/
      (BazelArtifact_ (ArtifactType_ art) = None /\
       exists plugin, BuilderPlugin_ art = Some plugin))).
Proof.
  destruct p as [l|]; [|left; reflexivity].
  destruct (store w !! l) as [art|] eqn:Hl; [|left; go_unfold; now rewrite Hl].
  destruct (BazelArtifact_ (ArtifactType_ art)) as [a|] eqn:Ha.
  { right. exists l, art. eauto. }
  destruct (BuilderPlugin_ art) as [plugin|] eqn:Hp.
  { right. exists l, art. eauto 6. }
  left. go_unfold. now rewrite Hl, Ha, Hp.
Qed.

End Materializer.

Section MaterializerClaims.
Context `{Collaborators}.
Implicit Types (w : World bazel.Builder) (l : loc) (art : Artifact).

(** C1. Materialization is idempotent.  For an artifact whose [ArtifactType]
    already holds the Bazel payload, [setArtifact] returns success and leaves
    the world as it was: the store, and so the artifact's [ArtifactType], is
    unchanged and no call of the decoder is logged; calling it twice is the
    same as calling it once.  For any pointer and any world, a second call
    leaves the store as the first call left it, and after a successful first
    call the second one succeeds without decoding. *)
Theorem setArtifact_idempotent l art a w :
  store w !! l = Some art ->
  BazelArtifact_ (ArtifactType_ art) = Some a ->
  bazel.setArtifact (Some l) w = (Val None, w) /\
  (bazel.setArtifact (Some l) ;;; bazel.setArtifact (Some l)) w = bazel.setArtifact (Some l) w /\
  (forall (p : ptr) (w0 : World bazel.Builder),
     let w1 := snd (bazel.setArtifact p w0) in
     store (snd (bazel.setArtifact p w1)) = store w1 /\
     (fst (bazel.setArtifact p w0) = Val None -> bazel.setArtifact p w1 = (Val None, w1))).
Proof.
  intros Hl Ha.
  pose proof (setArtifact_materialized l art a w Hl Ha) as Hm.
  split; [exact Hm|]. split.
  { unfold bind at 1. now rewrite Hm. }
  clear. intros p w0 w1. subst w1.
  destruct (setArtifact_cases p w0) as [Hp|(l & art & -> & Hl & [[a Ha]|[Ha [plugin Hp]]])].
  - rewrite Hp. simpl. rewrite Hp. split; [reflexivity | discriminate].
  - rewrite (setArtifact_materialized l art a w0 Hl Ha). simpl.
    rewrite (setArtifact_materialized l art a w0 Hl Ha). split; reflexivity.
  - rewrite (setArtifact_decodes l art plugin w0 Hl Ha Hp). cbv zeta.
    set (w' := logged (CallUnmarshalStrict (Contents plugin)) w0).
    assert (Hl' : store w' !! l = Some art) by exact Hl.
    pose proof (setArtifact_decodes l art plugin w' Hl' Ha Hp) as Hagain.
    cbv zeta in Hagain.
    destruct (yaml_UnmarshalStrict (Contents plugin)) as [err|[b|]]; simpl.
    + rewrite Hagain. split; [reflexivity | discriminate].
    + destruct (bool_decide (BuildTarget b = "")); simpl.
      * rewrite Hagain. split; [reflexivity | discriminate].
      * assert (Hs : store (stored l (set_BazelArtifact art (Some b)) w') !! l
                     = Some (set_BazelArtifact art (Some b)))
          by apply lookup_insert_eq.
        rewrite (setArtifact_materialized _ _ b _ Hs eq_refl). split; reflexivity.
    + rewrite Hagain. split; [reflexivity | discriminate].
Qed.

(** C3. Strict decode.  When the contents of an artifact without payload
    have a field unknown to the Bazel schema, the strict decoder refuses
    them, and [setArtifact] returns that decode error, wrapped as
    "unmarshalling bazel artifact"; the artifact stays as it was. *)
Theorem setArtifact_strict_decode l art plugin w :
  store w !! l = Some art ->
  BazelArtifact_ (ArtifactType_ art) = None ->
  BuilderPlugin_ art = Some plugin ->
  yaml_unknown_field (Contents plugin) = true ->
  exists err : error,
    yaml_UnmarshalStrict (Contents plugin) = inl err /\
    bazel.setArtifact (Some l) w =
      (Val (Some (Wrap err "unmarshalling bazel artifact")),
       logged (CallUnmarshalStrict (Contents plugin)) w) /\
    store (snd (bazel.setArtifact (Some l) w)) !! l = Some art.
Proof.
  intros Hl Ha Hp Hu.
  destruct (yaml_strict _ Hu) as [err Herr]. exists err.
  rewrite (setArtifact_decodes l art plugin w Hl Ha Hp), Herr. auto.
Qed.

(** C4. Required-field validation names the artifact.  When the contents of
    an artifact without payload decode to a configuration with an empty
    build target, [setArtifact] fails with an error whose message begins with
    the artifact's image name, and the artifact's payload stays unset. *)
Theorem setArtifact_requires_target l art plugin a w :
  store w !! l = Some art ->
  BazelArtifact_ (ArtifactType_ art) = None ->
  BuilderPlugin_ art = Some plugin ->
  yaml_UnmarshalStrict (Contents plugin) = inr (Some a) ->
  BuildTarget a = "" ->
  exists err : error,
    bazel.setArtifact (Some l) w =
      (Val (Some err), logged (CallUnmarshalStrict (Contents plugin)) w) /\
    Error err = ImageName art +:+ " must have an associated build target" /\
    mentions (Error err) (ImageName art) /\
    store (snd (bazel.setArtifact (Some l) w)) !! l = Some art.
Proof.
  intros Hl Ha Hp Hy Ht.
  exists (New (ImageName art +:+ " must have an associated build target")).
  rewrite (setArtifact_decodes l art plugin w Hl Ha Hp), Hy. cbv zeta.
  rewrite bool_decide_eq_true_2 by exact Ht.
  repeat split; [apply mentions_prefix | exact Hl].
Qed.

(** C10. Pre-populated configurations bypass validation.  [setArtifact]
    accepts an artifact that already carries a Bazel payload even when that
    payload's build target is empty, and leaves it as it is; a payload that
    [setArtifact] itself stores has a build target that is not empty. *)
Theorem setArtifact_prepopulated_unchecked l art a w :
  store w !! l = Some art ->
  BazelArtifact_ (ArtifactType_ art) = Some a ->
  BuildTarget a = "" ->
  bazel.setArtifact (Some l) w = (Val None, w) /\
  (forall l0 art0 w0 w1,
     store w0 !! l0 = Some art0 ->
     BazelArtifact_ (ArtifactType_ art0) = None ->
     bazel.setArtifact (Some l0) w0 = (Val None, w1) ->
     exists b, store w1 !! l0 = Some (set_BazelArtifact art0 (Some b)) /\ BuildTarget b <> "").
Proof.
  intros Hl Ha _. split; [exact (setArtifact_materialized l art a w Hl Ha)|].
  clear. intros l art w w1 Hl Ha Hs.
  destruct (BuilderPlugin_ art) as [plugin|] eqn:Hp.
  - rewrite (setArtifact_decodes l art plugin w Hl Ha Hp) in Hs. cbv zeta in Hs.
    destruct (yaml_UnmarshalStrict (Contents plugin)) as [err|[b|]]; try discriminate.
    destruct (bool_decide (BuildTarget b = "")) eqn:Hb; [discriminate|].
    apply bool_decide_eq_false in Hb.
    injection Hs as <-. exists b. split; [apply lookup_insert_eq | exact Hb].
  - go_unfold. rewrite Hl, Ha, Hp in Hs. discriminate.
Qed.

End MaterializerClaims.

(** ** Paths *)

(** [Clean] and [Join] on a few paths. *)
Example Clean_examples :
  filepath.Clean "/src//./a/../main.go" = "/src/main.go" /\
  filepath.Clean "../../a/.." = "../.." /\
  filepath.Clean "/.." = "/" /\
  filepath.Clean "a/.." = "." /\
  filepath.Clean "./main.go" = "main.go" /\
  filepath.Join "/src" "main.go" = "/src/main.go" /\
  filepath.Join "src/" "" = "src" /\
  filepath.Join "" "BUILD" = "BUILD".
Proof. repeat split; reflexivity. Qed.

Lemma IsAbs_append (a b : string) : filepath.IsAbs a = true -> filepath.IsAbs (a +:+ b) = true.
Proof. destruct a as [|c a]; [discriminate | intros Hc; exact Hc]. Qed.

(** [Clean] keeps a rooted path rooted. *)
Lemma Clean_rooted (path : string) :
  filepath.IsAbs path = true -> filepath.IsAbs (filepath.Clean path) = true.
Proof.
  intros Hp. unfold filepath.Clean.
  destruct path as [|c path]; [discriminate|].
  rewrite bool_decide_eq_false_2 by discriminate.
  rewrite Hp. reflexivity.
Qed.

(** A path joined to an absolute path is absolute. *)
Lemma Join_rooted (a b : string) :
  filepath.IsAbs a = true -> filepath.IsAbs (filepath.Join a b) = true.
Proof.
  intros Ha. unfold filepath.Join.
  destruct a as [|c a]; [discriminate|].
  rewrite bool_decide_eq_false_2 by discriminate.
  apply Clean_rooted. exact Ha.
Qed.

Section Normalization.
Context `{Collaborators}.

(** The anchor of a workspace is an absolute path, and an absolute
    workspace is its own anchor. *)
Lemma anchor_rooted (workspace : string) : filepath.IsAbs (util.anchor workspace) = true.
Proof.
  unfold util.anchor. destruct (filepath.IsAbs workspace) eqn:Hw; [exact Hw|].
  apply Join_rooted, os_Getwd_rooted.
Qed.

Lemma anchor_absolute (workspace : string) :
  filepath.IsAbs workspace = true -> util.anchor workspace = workspace.
Proof. intros Hw. unfold util.anchor. now rewrite Hw. Qed.

Lemma AbsolutePaths_lookup (workspace : string) (paths : list string) (i : nat) (path : string) :
  paths !! i = Some path ->
  util.AbsolutePaths workspace paths !! i =
    Some (if filepath.IsAbs path then path
          else filepath.Join (util.anchor workspace) path).
Proof. intros Hi. unfold util.AbsolutePaths. now rewrite list_lookup_fmap, Hi. Qed.

Lemma AbsolutePaths_length (workspace : string) (paths : list string) :
  length (util.AbsolutePaths workspace paths) = length paths.
Proof. apply length_map. Qed.

(** Every normalized path is absolute. *)
Lemma AbsolutePaths_rooted (workspace : string) (paths : list string) :
  Forall (fun path => filepath.IsAbs path = true) (util.AbsolutePaths workspace paths).
Proof.
  unfold util.AbsolutePaths. apply Forall_fmap, Forall_forall.
  intros path _. simpl.
  destruct (filepath.IsAbs path) eqn:Hp; [exact Hp|].
  apply Join_rooted, anchor_rooted.
Qed.

End Normalization.

Lemma count_app (kind : Call -> bool) (cs cs' : list Call) :
  count kind (cs ++ cs') = count kind cs + count kind cs'.
Proof. unfold count. now rewrite filter_app, length_app. Qed.

Lemma count_one_other (kind : Call -> bool) (c : Call) :
  kind c = false -> count kind [c] = 0.
Proof.
  intros Hk. unfold count. rewrite filter_cons_False; [reflexivity|].
  rewrite Hk. discriminate.
Qed.

Section Frames.
Context `{Collaborators}.
Implicit Types (w : World bazel.Builder) (l : loc) (art : Artifact).

(** [setArtifact] never touches the receiver, and logs at most one call,
    a decode. *)
Lemma setArtifact_frame (p : ptr) w :
  let w1 := snd (bazel.setArtifact p w) in
  self w1 = self w /\
  (calls w1 = calls w \/ exists c, calls w1 = calls w ++ [CallUnmarshalStrict c]).
Proof.
  destruct (setArtifact_cases p w) as [Hp|(l & art & -> & Hl & [[a Ha]|[Ha [plugin Hp]]])].
  - rewrite Hp. simpl. auto.
  - rewrite (setArtifact_materialized l art a w Hl Ha). simpl. auto.
  - rewrite (setArtifact_decodes l art plugin w Hl Ha Hp). cbv zeta.
    destruct (yaml_UnmarshalStrict (Contents plugin)) as [err|[b|]];
      [| destruct (bool_decide (BuildTarget b = "")) |]; simpl; eauto.
Qed.

(** A failing [setArtifact] leaves the store as it was. *)
Lemma setArtifact_failure (p : ptr) w err w1 :
  bazel.setArtifact p w = (Val (Some err), w1) ->
  store w1 = store w /\ exists l art, p = Some l /\ store w !! l = Some art.
Proof.
  intros Hs.
  destruct (setArtifact_cases p w) as [Hp|(l & art & -> & Hl & [[a Ha]|[Ha [plugin Hp]]])].
  - congruence.
  - rewrite (setArtifact_materialized l art a w Hl Ha) in Hs. discriminate.
  - rewrite (setArtifact_decodes l art plugin w Hl Ha Hp) in Hs. cbv zeta in Hs.
    split; [|eauto].
    destruct (yaml_UnmarshalStrict (Contents plugin)) as [e|[b|]];
      [| destruct (bool_decide (BuildTarget b = "")) |];
      inversion Hs; reflexivity.
Qed.

(** After a successful [setArtifact] the artifact carries a payload; its
    name and workspace are the ones it had. *)
Lemma setArtifact_success (p : ptr) w w1 :
  bazel.setArtifact p w = (Val None, w1) ->
  exists l art0 art a,
    p = Some l /\ store w !! l = Some art0 /\ store w1 !! l = Some art /\
    BazelArtifact_ (ArtifactType_ art) = Some a /\
    ImageName art = ImageName art0 /\ Workspace art = Workspace art0.
Proof.
  intros Hs.
  destruct (setArtifact_cases p w) as [Hp|(l & art & -> & Hl & [[a Ha]|[Ha [plugin Hp]]])].
  - congruence.
  - rewrite (setArtifact_materialized l art a w Hl Ha) in Hs. injection Hs as <-.
    exists l, art, art, a. repeat split; assumption || reflexivity.
  - rewrite (setArtifact_decodes l art plugin w Hl Ha Hp) in Hs. cbv zeta in Hs.
    destruct (yaml_UnmarshalStrict (Contents plugin)) as [e|[b|]]; try discriminate.
    destruct (bool_decide (BuildTarget b = "")); [discriminate|].
    injection Hs as <-.
    exists l, art, (set_BazelArtifact art (Some b)), b.
    repeat split; try reflexivity; [exact Hl | apply lookup_insert_eq].
Qed.

Lemma setArtifact_count (kind : Call -> bool) (p : ptr) w :
  (forall c, kind (CallUnmarshalStrict c) = false) ->
  count kind (calls (snd (bazel.setArtifact p w))) = count kind (calls w).
Proof.
  intros Hk. destruct (setArtifact_frame p w) as [_ [-> | [c ->]]]; [reflexivity|].
  rewrite count_app, count_one_other by apply Hk. lia.
Qed.

End Frames.

Section Resolver.
Context `{Collaborators}.
Implicit Types (w : World bazel.Builder) (g : World gcb.Builder) (l : loc) (art : Artifact).

(** The Bazel resolver after a successful materialization: the enumerator
    is called on the stored payload. *)
Lemma DependenciesForArtifact_enumerates ctx l art a w w1 :
  bazel.setArtifact (Some l) w = (Val None, w1) ->
  store w1 !! l = Some art ->
  BazelArtifact_ (ArtifactType_ art) = Some a ->
  bazel.DependenciesForArtifact ctx (Some l) w =
    let w2 := logged (CallBazelGetDependencies (Workspace art) a) w1 in
    match bazel_GetDependencies ctx (Workspace art) a with
    | inl err => (Val ([], Some (Wrap err "getting bazel dependencies")), w2)
    | inr paths => (Val (util.AbsolutePaths (Workspace art) paths, None), w2)
    end.
Proof.
  intros Hs Hl Ha. unfold bazel.DependenciesForArtifact, bind at 1. rewrite Hs.
  go_unfold. rewrite Hl, Ha. simpl.
  now destruct (bazel_GetDependencies ctx (Workspace art) a).
Qed.

(** The Bazel resolver after a failed materialization: that error, no
    paths, and the world as [setArtifact] left it. *)
Lemma DependenciesForArtifact_unmaterializable ctx (p : ptr) w w1 err :
  bazel.setArtifact p w = (Val (Some err), w1) ->
  bazel.DependenciesForArtifact ctx p w = (Val ([], Some err), w1).
Proof. intros Hs. unfold bazel.DependenciesForArtifact, bind at 1. now rewrite Hs. Qed.

(** The Google Cloud Build resolver calls the enumerator on whatever Docker
    payload the artifact has. *)
Lemma gcb_DependenciesForArtifact_enumerates ctx l art g :
  store g !! l = Some art ->
  gcb.DependenciesForArtifact ctx (Some l) g =
    let g1 := logged (CallDockerGetDependencies (Workspace art)
                        (DockerArtifact_ (ArtifactType_ art))) g in
    match docker_GetDependencies ctx (Workspace art) (DockerArtifact_ (ArtifactType_ art)) with
    | inl err => (Val ([], Some (Wrap err ("getting dependencies for " +:+ ImageName art))), g1)
    | inr paths => (Val (util.AbsolutePaths (Workspace art) paths, None), g1)
    end.
Proof.
  intros Hl. go_unfold. rewrite Hl. simpl.
  now destruct (docker_GetDependencies ctx (Workspace art) (DockerArtifact_ (ArtifactType_ art))).
Qed.

(** A successful call of the Bazel resolver, taken apart. *)
Lemma DependenciesForArtifact_inv ctx (p : ptr) w paths w2 :
  bazel.DependenciesForArtifact ctx p w = (Val (paths, None), w2) ->
  exists l art a raw,
    p = Some l /\ store w2 !! l = Some art /\
    BazelArtifact_ (ArtifactType_ art) = Some a /\
    bazel_GetDependencies ctx (Workspace art) a = inr raw /\
    paths = util.AbsolutePaths (Workspace art) raw.
Proof.
  intros Hd.
  destruct (bazel.setArtifact p w) as [[[err|]|] w1] eqn:Hs.
  - rewrite (DependenciesForArtifact_unmaterializable ctx p w w1 err Hs) in Hd. discriminate.
  - destruct (setArtifact_success p w w1 Hs) as (l & art0 & art & a & -> & _ & Hl & Ha & _).
    rewrite (DependenciesForArtifact_enumerates ctx l art a w w1 Hs Hl Ha) in Hd.
    cbv zeta in Hd.
    destruct (bazel_GetDependencies ctx (Workspace art) a) as [err|raw] eqn:Hg;
      [discriminate|].
    injection Hd as <- <-. exists l, art, a, raw. auto.
  - unfold bazel.DependenciesForArtifact, bind at 1 in Hd. rewrite Hs in Hd. discriminate.
Qed.

(** C6. Path normalization.  After a successful call of either resolver
    every returned path is absolute.  The returned list is the enumerator's
    list, path by path: an absolute path is passed through, a relative path is
    joined to the anchor of the artifact's workspace, which is the workspace
    itself when the workspace is absolute. *)
Theorem DependenciesForArtifact_normalizes ctx (p : ptr) :
  (forall w paths w2,
     bazel.DependenciesForArtifact ctx p w = (Val (paths, None), w2) ->
     exists l art a raw,
       p = Some l /\ store w2 !! l = Some art /\
       BazelArtifact_ (ArtifactType_ art) = Some a /\
       bazel_GetDependencies ctx (Workspace art) a = inr raw /\
       Forall (fun path => filepath.IsAbs path = true) paths /\
       length paths = length raw /\
       (forall i path, raw !! i = Some path ->
          paths !! i = Some (if filepath.IsAbs path then path
                             else filepath.Join (util.anchor (Workspace art)) path)) /\
       (filepath.IsAbs (Workspace art) = true ->
        util.anchor (Workspace art) = Workspace art)) /\
  (forall g paths g2,
     gcb.DependenciesForArtifact ctx p g = (Val (paths, None), g2) ->
     exists l art raw,
       p = Some l /\ store g !! l = Some art /\
       docker_GetDependencies ctx (Workspace art) (DockerArtifact_ (ArtifactType_ art)) = inr raw /\
       Forall (fun path => filepath.IsAbs path = true) paths /\
       length paths = length raw /\
       (forall i path, raw !! i = Some path ->
          paths !! i = Some (if filepath.IsAbs path then path
                             else filepath.Join (util.anchor (Workspace art)) path)) /\
       (filepath.IsAbs (Workspace art) = true ->
        util.anchor (Workspace art) = Workspace art)).
Proof.
  split.
  - intros w paths w2 Hd.
    destruct (DependenciesForArtifact_inv ctx p w paths w2 Hd)
      as (l & art & a & raw & -> & Hl & Ha & Hg & ->).
    exists l, art, a, raw.
    split; [reflexivity|]. split; [exact Hl|]. split; [exact Ha|]. split; [exact Hg|].
    split; [apply AbsolutePaths_rooted|]. split; [apply AbsolutePaths_length|].
    split; [intros i path; apply AbsolutePaths_lookup | apply anchor_absolute].
  - intros g paths g2 Hd.
    destruct p as [l|]; [|discriminate].
    destruct (store g !! l) as [art|] eqn:Hl;
      [| go_unfold; rewrite Hl in Hd; discriminate].
    rewrite (gcb_DependenciesForArtifact_enumerates ctx l art g Hl) in Hd. cbv zeta in Hd.
    destruct (docker_GetDependencies _ _ _) as [err|raw] eqn:Hg; [discriminate|].
    injection Hd as <- <-. exists l, art, raw.
    split; [reflexivity|]. split; [exact Hl|]. split; [exact Hg|].
    split; [apply AbsolutePaths_rooted|]. split; [apply AbsolutePaths_length|].
    split; [intros i path; apply AbsolutePaths_lookup | apply anchor_absolute].
Qed.

(** C7 (as amended). The Bazel resolver materializes the artifact itself.
    For an artifact without payload it first runs [setArtifact]: when that
    fails, the resolver returns that error and no paths, and the enumerator
    is not called; when it succeeds, the enumerator is called on the payload
    just stored.  The Google Cloud Build resolver checks nothing: it calls
    the enumerator on the artifact's Docker payload, set or not. *)
Theorem DependenciesForArtifact_materializes ctx l art w :
  store w !! l = Some art ->
  BazelArtifact_ (ArtifactType_ art) = None ->
  (forall err w1,
     bazel.setArtifact (Some l) w = (Val (Some err), w1) ->
     bazel.DependenciesForArtifact ctx (Some l) w = (Val ([], Some err), w1) /\
     count is_enumeration (calls w1) = count is_enumeration (calls w)) /\
  (forall w1,
     bazel.setArtifact (Some l) w = (Val None, w1) ->
     exists a,
       store w1 !! l = Some (set_BazelArtifact art (Some a)) /\
       calls (snd (bazel.DependenciesForArtifact ctx (Some l) w)) =
         calls w1 ++ [CallBazelGetDependencies (Workspace art) a] /\
       fst (bazel.DependenciesForArtifact ctx (Some l) w) =
         match bazel_GetDependencies ctx (Workspace art) a with
         | inl err => Val ([], Some (Wrap err "getting bazel dependencies"))
         | inr paths => Val (util.AbsolutePaths (Workspace art) paths, None)
         end) /\
  (forall g,
     store g !! l = Some art ->
     calls (snd (gcb.DependenciesForArtifact ctx (Some l) g)) =
       calls g ++ [CallDockerGetDependencies (Workspace art)
                     (DockerArtifact_ (ArtifactType_ art))]).
Proof.
  intros Hl Ha. split; [|split].
  - intros err w1 Hs. split.
    + apply DependenciesForArtifact_unmaterializable, Hs.
    + pose proof (setArtifact_count is_enumeration (Some l) w (fun _ => eq_refl)) as Hc.
      now rewrite Hs in Hc.
  - intros w1 Hs.
    destruct (BuilderPlugin_ art) as [plugin|] eqn:Hp;
      [| go_unfold; rewrite Hl, Ha, Hp in Hs; discriminate].
    pose proof Hs as Hs'.
    rewrite (setArtifact_decodes l art plugin w Hl Ha Hp) in Hs'. cbv zeta in Hs'.
    destruct (yaml_UnmarshalStrict (Contents plugin)) as [e|[a|]]; try discriminate.
    destruct (bool_decide (BuildTarget a = "")); [discriminate|].
    injection Hs' as Hw1.
    assert (Hl1 : store w1 !! l = Some (set_BazelArtifact art (Some a))).
    { rewrite <- Hw1. apply lookup_insert_eq. }
    exists a. split; [exact Hl1|].
    rewrite (DependenciesForArtifact_enumerates ctx l _ a w w1 Hs Hl1 eq_refl). cbv zeta.
    simpl. now destruct (bazel_GetDependencies ctx (Workspace art) a).
  - intros g Hg. rewrite (gcb_DependenciesForArtifact_enumerates ctx l art g Hg). cbv zeta.
    now destruct (docker_GetDependencies _ _ _).
Qed.

(** C8 (as amended). A failing enumerator ends the call.  For every
    artifact, when the enumerator fails, each resolver returns an error that
    wraps the enumerator's error, with no path at all.  The Google Cloud Build
    resolver's message carries the artifact's image name; the Bazel
    resolver's message is the fixed text "getting bazel dependencies". *)
Theorem DependenciesForArtifact_enumerator_failure ctx l :
  (forall art a w w1 cause,
     bazel.setArtifact (Some l) w = (Val None, w1) ->
     store w1 !! l = Some art ->
     BazelArtifact_ (ArtifactType_ art) = Some a ->
     bazel_GetDependencies ctx (Workspace art) a = inl cause ->
     let err := Wrap cause "getting bazel dependencies" in
     bazel.DependenciesForArtifact ctx (Some l) w =
       (Val ([], Some err), logged (CallBazelGetDependencies (Workspace art) a) w1) /\
     Error err = "getting bazel dependencies: " +:+ Error cause /\
     wraps cause err) /\
  (forall art g cause,
     store g !! l = Some art ->
     docker_GetDependencies ctx (Workspace art) (DockerArtifact_ (ArtifactType_ art))
       = inl cause ->
     let err := Wrap cause ("getting dependencies for " +:+ ImageName art) in
     gcb.DependenciesForArtifact ctx (Some l) g =
       (Val ([], Some err),
        logged (CallDockerGetDependencies (Workspace art)
                  (DockerArtifact_ (ArtifactType_ art))) g) /\
     Error err = ("getting dependencies for " +:+ ImageName art) +:+ ": " +:+ Error cause /\
     wraps cause err /\
     mentions (Error err) (ImageName art)).
Proof.
  split.
  - intros art a w w1 cause Hs Hl Ha Hg.
    rewrite (DependenciesForArtifact_enumerates ctx l art a w w1 Hs Hl Ha). cbv zeta.
    rewrite Hg. split; [reflexivity|]. split; [reflexivity | apply wraps_Wrap].
  - intros art g cause Hl Hd.
    rewrite (gcb_DependenciesForArtifact_enumerates ctx l art g Hl). cbv zeta.
    rewrite Hd. split; [reflexivity|]. split; [reflexivity|].
    split; [apply wraps_Wrap | apply mentions_infix].
Qed.

End Resolver.

Section Dispatcher.
Context `{Collaborators}.
Implicit Types (w : World bazel.Builder) (l : loc) (art : Artifact).

Lemma prepared_count (kind : Call -> bool) w :
  kind CallCurrentContext = false ->
  kind CallNewBuilder = false ->
  count kind (calls (prepared w)) = count kind (calls w).
Proof.
  intros H1 H2. unfold prepared, logged. simpl.
  rewrite !count_app, !count_one_other by assumption. lia.
Qed.

(** The loop goes on after the artifacts that materialize. *)
Lemma setArtifacts_app (pre rest : list ptr) w w1 :
  bazel.setArtifacts pre w = (Val None, w1) ->
  bazel.setArtifacts (pre ++ rest) w = bazel.setArtifacts rest w1.
Proof.
  revert w. induction pre as [|p pre IH]; intros w Hpre; simpl in *.
  - unfold ret in Hpre. now injection Hpre as ->.
  - unfold bind in *.
    destruct (bazel.setArtifact p w) as [[[err|]|] w0]; simpl in *.
    + unfold bind in Hpre. destruct (deref p w0) as [[?|] ?]; discriminate.
    + apply IH, Hpre.
    + discriminate.
Qed.

(** The loop stops at the first artifact that does not materialize. *)
Lemma setArtifacts_stops l art err (rest : list ptr) w w1 :
  bazel.setArtifact (Some l) w = (Val (Some err), w1) ->
  store w1 !! l = Some art ->
  bazel.setArtifacts (Some l :: rest) w =
    (Val (Some (Wrap err ("setting artifact " +:+ ImageName art))), w1).
Proof.
  intros Hs Hl. simpl. unfold bind at 1. rewrite Hs.
  unfold bind, deref, ret. now rewrite Hl.
Qed.

Lemma setArtifacts_cons (p : ptr) (rest : list ptr) w :
  bazel.setArtifacts (p :: rest) w =
    match bazel.setArtifact p w with
    | (Val (Some err), w0) =>
        match deref p w0 with
        | (Val art, w1) => (Val (Some (Wrap err ("setting artifact " +:+ ImageName art))), w1)
        | (Panic, w1) => (Panic, w1)
        end
    | (Val None, w0) => bazel.setArtifacts rest w0
    | (Panic, w0) => (Panic, w0)
    end.
Proof.
  simpl. unfold bind at 1.
  destruct (bazel.setArtifact p w) as [[[err|]|] w0]; reflexivity.
Qed.

Lemma deref_world {B : Type} (p : ptr) (w0 : World B) : snd (deref p w0) = w0.
Proof. unfold deref. destruct p as [l|]; [|reflexivity]. now destruct (store w0 !! l). Qed.

Lemma setArtifacts_frame (artifacts : list ptr) w :
  let w1 := snd (bazel.setArtifacts artifacts w) in
  self w1 = self w /\
  count is_build (calls w1) = count is_build (calls w) /\
  count is_enumeration (calls w1) = count is_enumeration (calls w) /\
  count is_decode (calls w1) <= count is_decode (calls w) + length artifacts.
Proof.
  cbv zeta. revert w. induction artifacts as [|p rest IH]; intros w.
  { simpl. split; [reflexivity|]. split; [reflexivity|]. split; [reflexivity|]. lia. }
  destruct (setArtifact_frame p w) as [Hself Hcalls].
  pose proof (setArtifact_count is_build p w (fun _ => eq_refl)) as Hb.
  pose proof (setArtifact_count is_enumeration p w (fun _ => eq_refl)) as He.
  assert (Hd : count is_decode (calls (snd (bazel.setArtifact p w)))
               <= count is_decode (calls w) + 1).
  { destruct Hcalls as [-> | [c ->]]; [lia|]. rewrite count_app. unfold count at 2.
    simpl. lia. }
  rewrite setArtifacts_cons.
  destruct (bazel.setArtifact p w) as [[[err|]|] w0]; simpl in Hself, Hb, He, Hd.
  - pose proof (deref_world p w0) as Hw.
    destruct (deref p w0) as [[art|] w1]; simpl in Hw; subst w1; simpl;
      (split; [exact Hself|]; split; [exact Hb|]; split; [exact He|]; lia).
  - destruct (IH w0) as (Is & Ib & Ie & Id).
    split; [congruence|]. split; [congruence|]. split; [congruence|]. simpl. lia.
  - simpl. split; [exact Hself|]. split; [exact Hb|]. split; [exact He|]. lia.
Qed.

(** [local] under the environment named "local", up to its loop. *)
Lemma local_prepared ctx out tags (artifacts : list ptr) e o lb kube builder w :
  bazel.env (self w) = Some e ->
  bazel.adapt e = inr lb ->
  kubectx_CurrentContext = inr kube ->
  bazel.opts (self w) = Some o ->
  local_NewBuilder lb kube (SkipTests o) = inr builder ->
  bazel.local ctx out tags artifacts w =
    match bazel.setArtifacts artifacts (prepared w) with
    | (Val (Some err), w1) => (Val ([], Some err), w1)
    | (Val None, w1) => bazel.delegate builder ctx out tags artifacts w1
    | (Panic, w1) => (Panic, w1)
    end.
Proof.
  intros He Ha Hk Ho Hn. unfold bazel.local, prepared.
  unfold bind at 1, this. unfold bind at 1. rewrite He. simpl.
  rewrite Ha. unfold bind at 1, log. rewrite Hk.
  unfold bind at 1. simpl. rewrite Ho. simpl.
  unfold bind at 1. rewrite Hn. unfold bind at 1, logged. simpl.
  destruct (bazel.setArtifacts artifacts _) as [[[err|]|] w1]; reflexivity.
Qed.

Lemma Build_dispatch ctx out tags (artifacts : list ptr) e w :
  bazel.env (self w) = Some e ->
  bazel.Build ctx out tags artifacts w =
    if bool_decide (Name e = constants.Local) then bazel.local ctx out tags artifacts w
    else (Val ([], Some (New (Name e +:+ " is not a supported environment for builder bazel"))), w).
Proof.
  intros He. unfold bazel.Build, bind, this, deref_opt. rewrite He. simpl.
  now destruct (bool_decide (Name e = constants.Local)).
Qed.

(** C2. Batch materialization is all-or-nothing.  Under the environment
    named "local", once the configuration is adapted and the local builder
    made: if the artifacts [pre] materialize and [setArtifact] then fails on
    the next one, [Build] returns that error wrapped with the image name of
    that artifact, and no build result.  The world it leaves is the one the
    failing [setArtifact] left: the artifacts after it are not looked at, at
    most one decode per artifact up to the failing one has run, and the
    delegated builder has not been called. *)
Theorem Build_all_or_nothing ctx out tags (pre post : list ptr) l art e o lb kube builder
    w w1 w2 err :
  bazel.env (self w) = Some e ->
  Name e = constants.Local ->
  bazel.adapt e = inr lb ->
  kubectx_CurrentContext = inr kube ->
  bazel.opts (self w) = Some o ->
  local_NewBuilder lb kube (SkipTests o) = inr builder ->
  bazel.setArtifacts pre (prepared w) = (Val None, w1) ->
  bazel.setArtifact (Some l) w1 = (Val (Some err), w2) ->
  store w2 !! l = Some art ->
  let failure := Wrap err ("setting artifact " +:+ ImageName art) in
  bazel.Build ctx out tags (pre ++ Some l :: post) w = (Val ([], Some failure), w2) /\
  mentions (Error failure) (ImageName art) /\
  wraps err failure /\
  store w2 = store w1 /\
  count is_build (calls w2) = count is_build (calls w) /\
  count is_decode (calls w2) <= count is_decode (calls w) + length pre + 1.
Proof.
  intros He Hn Ha Hk Ho Hb Hpre Hs Hl failure. subst failure.
  split; [|split; [|split; [|split; [|split]]]].
  - rewrite (Build_dispatch ctx out tags _ e w He).
    rewrite bool_decide_eq_true_2 by exact Hn.
    rewrite (local_prepared ctx out tags _ e o lb kube builder w He Ha Hk Ho Hb).
    rewrite (setArtifacts_app pre (Some l :: post) _ w1 Hpre).
    now rewrite (setArtifacts_stops l art err post w1 w2 Hs Hl).
  - simpl. apply mentions_infix.
  - apply wraps_Wrap.
  - apply (setArtifact_failure (Some l) w1 err w2 Hs).
  - pose proof (setArtifact_count is_build (Some l) w1 (fun _ => eq_refl)) as H2.
    destruct (setArtifacts_frame pre (prepared w)) as (_ & H1 & _).
    rewrite Hpre in H1. rewrite Hs in H2. cbn [snd] in H1, H2.
    rewrite H2, H1. now apply prepared_count.
  - destruct (setArtifacts_frame pre (prepared w)) as (_ & _ & _ & H1).
    rewrite Hpre in H1. cbn [snd] in H1.
    destruct (setArtifact_frame (Some l) w1) as [_ H2]. rewrite Hs in H2. cbn [snd] in H2.
    assert (H0 : count is_decode (calls (prepared w)) = count is_decode (calls w))
      by now apply prepared_count.
    destruct H2 as [-> | [c ->]]; [lia|].
    rewrite count_app. unfold count at 2. simpl. lia.
Qed.

(** C5. Dispatcher rejection.  [Build] hands the batch to [local] exactly
    when the environment is named "local".  Under any other name it returns
    an error that begins with that name and no build result, and leaves the
    world as it found it: no collaborator is called, so no builder runs, and
    no artifact changes. *)
Theorem Build_rejects_unsupported ctx out tags (artifacts : list ptr) e w :
  bazel.env (self w) = Some e ->
  (Name e = "local" ->
   bazel.Build ctx out tags artifacts w = bazel.local ctx out tags artifacts w) /\
  (Name e <> "local" ->
   let rejection := New (Name e +:+ " is not a supported environment for builder bazel") in
   bazel.Build ctx out tags artifacts w = (Val ([], Some rejection), w) /\
   mentions (Error rejection) (Name e) /\
   calls (snd (bazel.Build ctx out tags artifacts w)) = calls w /\
   store (snd (bazel.Build ctx out tags artifacts w)) = store w).
Proof.
  intros He. rewrite (Build_dispatch ctx out tags artifacts e w He).
  unfold constants.Local. split; intros Hn.
  - now rewrite bool_decide_eq_true_2.
  - rewrite bool_decide_eq_false_2 by exact Hn.
    repeat split. apply mentions_prefix.
Qed.

(** [local] and [Build] leave the receiver, and with it the environment, as
    it was. *)
Lemma delegate_self builder ctx out tags (artifacts : list ptr) w :
  self (snd (bazel.delegate builder ctx out tags artifacts w)) = self w.
Proof.
  unfold bazel.delegate.
  now destruct (local_Build builder ctx out tags (store w) artifacts) as [st r].
Qed.

Lemma local_self ctx out tags (artifacts : list ptr) w :
  self (snd (bazel.local ctx out tags artifacts w)) = self w.
Proof.
  unfold bazel.local. unfold bind at 1, this. unfold bind at 1.
  destruct (bazel.env (self w)) as [e|]; simpl; [|reflexivity].
  destruct (bazel.adapt e) as [err|lb]; [reflexivity|].
  unfold bind at 1, log.
  destruct kubectx_CurrentContext as [err|kube]; [reflexivity|].
  unfold bind at 1. simpl.
  destruct (bazel.opts (self w)) as [o|]; simpl; [|reflexivity].
  unfold bind at 1.
  destruct (local_NewBuilder lb kube (SkipTests o)) as [err|builder]; [reflexivity|].
  unfold bind at 1.
  match goal with |- context [bazel.setArtifacts artifacts ?w0] =>
    destruct (setArtifacts_frame artifacts w0) as (Hs & _);
    destruct (bazel.setArtifacts artifacts w0) as [[[err|]|] w1]
  end; simpl in *; try exact Hs.
  rewrite delegate_self. exact Hs.
Qed.

(** C9. Environment adaptation defaults on absence.  A nil or empty
    properties bag adapts to the zero value of [LocalBuild]; adaptation
    fails only when the conversion of a bag that is not empty fails, with
    that failure wrapped; and [local] leaves the receiver's environment as it
    was. *)
Theorem adapt_defaults_on_absence (e : ExecutionEnvironment) :
  Properties e = None \/ Properties e = Some [] ->
  bazel.adapt e = inr LocalBuild_zero /\
  (forall e' err,
     bazel.adapt e' = inl err ->
     exists bag cause,
       Properties e' = Some bag /\ bag <> [] /\
       util.CloneThroughJSON (Some bag) = inl cause /\
       err = Wrap cause "converting execution env to localBuild struct") /\
  (forall ctx out tags (artifacts : list ptr) w,
     bazel.env (self (snd (bazel.local ctx out tags artifacts w))) = bazel.env (self w)).
Proof.
  intros Hp. split; [|split].
  - unfold bazel.adapt. destruct Hp as [-> | ->]; reflexivity.
  - intros e' err Ha. unfold bazel.adapt in Ha.
    destruct (Properties e') as [bag|] eqn:Hb; [|discriminate].
    destruct (util.CloneThroughJSON (Some bag)) as [cause|[lb|]] eqn:Hc; try discriminate.
    injection Ha as <-. exists bag, cause.
    split; [reflexivity|]. split; [|split; [exact Hc | reflexivity]].
    intros ->. discriminate.
  - intros. now rewrite local_self.
Qed.

End Dispatcher.

Section Delegation.
Context `{Collaborators}.
Implicit Types (w : World bazel.Builder) (l : loc) (art : Artifact).

(** A payload, once set, stays: [setArtifact] never removes one. *)
Lemma setArtifact_keeps (p q : ptr) w :
  materialized (store w) q -> materialized (store (snd (bazel.setArtifact p w))) q.
Proof.
  intros Hq.
  destruct (setArtifact_cases p w) as [Hp|(l & art & -> & Hl & [[a Ha]|[Ha [plugin Hp]]])].
  - now rewrite Hp.
  - now rewrite (setArtifact_materialized l art a w Hl Ha).
  - rewrite (setArtifact_decodes l art plugin w Hl Ha Hp). cbv zeta.
    destruct (yaml_UnmarshalStrict (Contents plugin)) as [err|[b|]]; [exact Hq| |exact Hq].
    destruct (bool_decide (BuildTarget b = "")); [exact Hq|].
    destruct Hq as (l' & art' & a' & -> & Hl' & Ha'). simpl.
    destruct (decide (l = l')) as [<-|Hne].
    + exists l, (set_BazelArtifact art (Some b)), b.
      split; [reflexivity|]. split; [apply lookup_insert_eq | reflexivity].
    + exists l', art', a'.
      split; [reflexivity|]. split; [now rewrite lookup_insert_ne | exact Ha'].
Qed.

Lemma setArtifacts_keeps (artifacts : list ptr) (q : ptr) w :
  materialized (store w) q -> materialized (store (snd (bazel.setArtifacts artifacts w))) q.
Proof.
  revert w. induction artifacts as [|p rest IH]; intros w Hq; [exact Hq|].
  rewrite setArtifacts_cons.
  pose proof (setArtifact_keeps p q w Hq) as Hk.
  destruct (bazel.setArtifact p w) as [[[err|]|] w0]; cbn [snd] in Hk.
  - pose proof (deref_world p w0) as Hw.
    destruct (deref p w0) as [[art|] w1]; cbn [snd] in Hw |- *; now subst w1.
  - apply IH, Hk.
  - exact Hk.
Qed.

(** When the loop of [local] runs to its end, every artifact of the batch
    carries a payload. *)
Lemma setArtifacts_materializes (artifacts : list ptr) w w1 :
  bazel.setArtifacts artifacts w = (Val None, w1) ->
  Forall (materialized (store w1)) artifacts.
Proof.
  revert w. induction artifacts as [|p rest IH]; intros w Hs; [constructor|].
  rewrite setArtifacts_cons in Hs.
  destruct (bazel.setArtifact p w) as [[[err|]|] w0] eqn:Hp.
  - destruct (deref p w0) as [[art|] w']; discriminate.
  - constructor; [|exact (IH w0 Hs)].
    destruct (setArtifact_success p w w0 Hp) as (l & art0 & art & a & -> & _ & Hl & Ha & _).
    pose proof (setArtifacts_keeps rest (Some l) w0) as Hk. rewrite Hs in Hk.
    apply Hk. exists l, art, a. auto.
  - discriminate.
Qed.

(** All or nothing, seen from the delegated builder: a call of [Build]
    either logs no call of the delegated builder, or every artifact of the
    batch was materialized before the one call it makes. *)
Lemma Build_delegates_materialized ctx out tags (artifacts : list ptr) w :
  count is_build (calls (snd (bazel.Build ctx out tags artifacts w)))
    = count is_build (calls w) \/
  exists builder w1,
    bazel.setArtifacts artifacts (prepared w) = (Val None, w1) /\
    Forall (materialized (store w1)) artifacts /\
    bazel.Build ctx out tags artifacts w = bazel.delegate builder ctx out tags artifacts w1.
Proof.
  destruct (bazel.env (self w)) as [e|] eqn:He;
    [| left; unfold bazel.Build, bind, this, deref_opt; now rewrite He].
  rewrite (Build_dispatch ctx out tags artifacts e w He).
  destruct (bool_decide (Name e = constants.Local)); [|now left].
  destruct (bazel.adapt e) as [err|lb] eqn:Ha.
  { left. unfold bazel.local, bind, this, deref_opt. rewrite He. simpl. now rewrite Ha. }
  destruct kubectx_CurrentContext as [err|kube] eqn:Hk.
  { left. unfold bazel.local, bind, this, deref_opt, log. rewrite He. simpl.
    rewrite Ha, Hk. simpl. rewrite count_app, count_one_other by reflexivity. lia. }
  destruct (bazel.opts (self w)) as [o|] eqn:Ho.
  2:{ left. unfold bazel.local, bind, this, deref_opt, log. rewrite He. simpl.
      rewrite Ha, Hk. simpl. rewrite Ho. simpl.
      rewrite count_app, count_one_other by reflexivity. lia. }
  destruct (local_NewBuilder lb kube (SkipTests o)) as [err|builder] eqn:Hn.
  { left. unfold bazel.local, bind, this, deref_opt, log. rewrite He. simpl.
    rewrite Ha, Hk. simpl. rewrite Ho. simpl. rewrite Hn. simpl.
    rewrite !count_app, !count_one_other by reflexivity. lia. }
  rewrite (local_prepared ctx out tags artifacts e o lb kube builder w He Ha Hk Ho Hn).
  destruct (setArtifacts_frame artifacts (prepared w)) as (_ & Hb & _).
  rewrite (prepared_count is_build w eq_refl eq_refl) in Hb.
  destruct (bazel.setArtifacts artifacts (prepared w)) as [[[err|]|] w1] eqn:Hs;
    cbn [snd] in Hb; [now left | | now left].
  right. exists builder, w1.
  split; [reflexivity|]. split; [exact (setArtifacts_materializes artifacts _ w1 Hs) | reflexivity].
Qed.

End Delegation.

(** ** Further properties of the Bazel builder *)

Lemma length_append (a b : string) :
  String.length (a +:+ b) = String.length a + String.length b.
Proof.
  induction a as [|c a IH]; [reflexivity|].
  rewrite append_cons. simpl. now rewrite IH.
Qed.

Section Further.
Context `{Collaborators}.
Implicit Types (w : World bazel.Builder) (l : loc) (art : Artifact).

(** The three errors of [setArtifact]. *)
Lemma setArtifact_errors (p : ptr) w err w1 :
  bazel.setArtifact p w = (Val (Some err), w1) ->
  (exists cause, err = Wrap cause "unmarshalling bazel artifact") \/
  err = New "artifact is nil" \/
  (exists art, err = New (ImageName art +:+ " must have an associated build target")).
Proof.
  intros Hs.
  destruct (setArtifact_cases p w) as [Hp|(l & art & -> & Hl & [[a Ha]|[Ha [plugin Hp]]])].
  - congruence.
  - rewrite (setArtifact_materialized l art a w Hl Ha) in Hs. discriminate.
  - rewrite (setArtifact_decodes l art plugin w Hl Ha Hp) in Hs. cbv zeta in Hs.
    destruct (yaml_UnmarshalStrict (Contents plugin)) as [e|[b|]].
    + injection Hs as <- _. left. eauto.
    + destruct (bool_decide (BuildTarget b = "")); [|discriminate].
      injection Hs as <- _. right. right. eauto.
    + injection Hs as <- _. right. left. reflexivity.
Qed.

(** A failing [setArtifact] was given an artifact without payload. *)
Lemma setArtifact_failure_unmaterialized l w err w1 :
  bazel.setArtifact (Some l) w = (Val (Some err), w1) ->
  ~ materialized (store w1) (Some l).
Proof.
  intros Hs (l' & art' & a' & Hp & Hl' & Ha'). injection Hp as <-.
  destruct (setArtifact_failure (Some l) w err w1 Hs) as [Hst _].
  rewrite Hst in Hl'.
  rewrite (setArtifact_materialized l art' a' w Hl' Ha') in Hs. discriminate.
Qed.

(** On a batch that is materialized already the loop does nothing. *)
Lemma setArtifacts_materialized (artifacts : list ptr) w :
  Forall (materialized (store w)) artifacts ->
  bazel.setArtifacts artifacts w = (Val None, w).
Proof.
  induction 1 as [|p rest (l & art & a & -> & Hl & Ha) _ IH]; [reflexivity|].
  rewrite setArtifacts_cons, (setArtifact_materialized l art a w Hl Ha). exact IH.
Qed.

(** X1. A successful materialization stores exactly the decoded
    configuration.  When the contents of an artifact without payload decode
    to a configuration with a build target, [setArtifact] succeeds after one
    decode; the artifact now carries that configuration and keeps its name,
    workspace, Docker payload and plugin contents; no other artifact and not
    the receiver is touched. *)
Theorem setArtifact_stores_decoded l art plugin a w :
  store w !! l = Some art ->
  BazelArtifact_ (ArtifactType_ art) = None ->
  BuilderPlugin_ art = Some plugin ->
  yaml_UnmarshalStrict (Contents plugin) = inr (Some a) ->
  BuildTarget a <> "" ->
  exists art',
    bazel.setArtifact (Some l) w =
      (Val None, stored l art' (logged (CallUnmarshalStrict (Contents plugin)) w)) /\
    BazelArtifact_ (ArtifactType_ art') = Some a /\
    DockerArtifact_ (ArtifactType_ art') = DockerArtifact_ (ArtifactType_ art) /\
    ImageName art' = ImageName art /\
    Workspace art' = Workspace art /\
    BuilderPlugin_ art' = Some plugin /\
    store (snd (bazel.setArtifact (Some l) w)) !! l = Some art' /\
    (forall l', l' <> l -> store (snd (bazel.setArtifact (Some l) w)) !! l' = store w !! l').
Proof.
  intros Hl Ha Hp Hy Ht. exists (set_BazelArtifact art (Some a)).
  rewrite (setArtifact_decodes l art plugin w Hl Ha Hp), Hy. cbv zeta.
  rewrite bool_decide_eq_false_2 by exact Ht.
  split; [reflexivity|]. split; [reflexivity|]. split; [reflexivity|].
  split; [reflexivity|]. split; [reflexivity|]. split; [exact Hp|].
  split; [apply lookup_insert_eq|].
  intros l' Hne. simpl. now rewrite lookup_insert_ne.
Qed.

(** X2. An empty document is refused.  When the decoder accepts the contents
    but leaves the target pointer nil, [setArtifact] fails with the error
    "artifact is nil" and the artifact stays without payload. *)
Theorem setArtifact_nil_document l art plugin w :
  store w !! l = Some art ->
  BazelArtifact_ (ArtifactType_ art) = None ->
  BuilderPlugin_ art = Some plugin ->
  yaml_UnmarshalStrict (Contents plugin) = inr None ->
  bazel.setArtifact (Some l) w =
    (Val (Some (New "artifact is nil")),
     logged (CallUnmarshalStrict (Contents plugin)) w) /\
  Error (New "artifact is nil") = "artifact is nil" /\
  ~ materialized (store (snd (bazel.setArtifact (Some l) w))) (Some l).
Proof.
  intros Hl Ha Hp Hy.
  assert (Hs : bazel.setArtifact (Some l) w =
                 (Val (Some (New "artifact is nil")),
                  logged (CallUnmarshalStrict (Contents plugin)) w)).
  { now rewrite (setArtifact_decodes l art plugin w Hl Ha Hp), Hy. }
  split; [exact Hs|]. split; [reflexivity|].
  rewrite Hs. exact (setArtifact_failure_unmaterialized l w _ _ Hs).
Qed.

(** X3. [setArtifact] only ever adds a payload.  Whatever pointer it is
    called on and however the call ends, every artifact of the store is still
    there with the name, workspace, Docker payload and plugin it had, and an
    artifact that carried a Bazel payload is exactly as it was. *)
Theorem setArtifact_only_adds (p : ptr) w l' art' :
  store w !! l' = Some art' ->
  exists art'',
    store (snd (bazel.setArtifact p w)) !! l' = Some art'' /\
    ImageName art'' = ImageName art' /\
    Workspace art'' = Workspace art' /\
    DockerArtifact_ (ArtifactType_ art'') = DockerArtifact_ (ArtifactType_ art') /\
    BuilderPlugin_ art'' = BuilderPlugin_ art' /\
    (forall a', BazelArtifact_ (ArtifactType_ art') = Some a' -> art'' = art').
Proof.
  intros Hl'.
  assert (Hsame : forall w1, store w1 = store w ->
            exists art'', store w1 !! l' = Some art'' /\
              ImageName art'' = ImageName art' /\ Workspace art'' = Workspace art' /\
              DockerArtifact_ (ArtifactType_ art'') = DockerArtifact_ (ArtifactType_ art') /\
              BuilderPlugin_ art'' = BuilderPlugin_ art' /\
              (forall a', BazelArtifact_ (ArtifactType_ art') = Some a' -> art'' = art')).
  { intros w1 Hst. exists art'. rewrite Hst. auto 10. }
  destruct (setArtifact_cases p w) as [Hp|(l & art & -> & Hl & [[a Ha]|[Ha [plugin Hp]]])].
  - rewrite Hp. now apply Hsame.
  - rewrite (setArtifact_materialized l art a w Hl Ha). now apply Hsame.
  - rewrite (setArtifact_decodes l art plugin w Hl Ha Hp). cbv zeta.
    destruct (yaml_UnmarshalStrict (Contents plugin)) as [err|[b|]];
      [now apply Hsame | | now apply Hsame].
    destruct (bool_decide (BuildTarget b = "")); [now apply Hsame|].
    simpl. destruct (decide (l = l')) as [<-|Hne].
    + rewrite lookup_insert_eq. exists (set_BazelArtifact art (Some b)).
      assert (art' = art) as -> by congruence.
      split; [reflexivity|]. split; [reflexivity|]. split; [reflexivity|].
      split; [reflexivity|]. split; [reflexivity|]. intros a' Ha'. congruence.
    + rewrite lookup_insert_ne by exact Hne. exists art'. auto 10.
Qed.

(** X4. [Build] needs an initialized builder.  On a builder without
    environment, as [NewBuilder] makes it, [Build] panics at once.  With an
    environment named "local" but without options it panics later: after the
    cluster context was read and before the local builder is made, with no
    artifact touched.  After [Init] with an environment of another name it
    returns the rejection. *)
Theorem Build_needs_Init ctx out tags (artifacts : list ptr) w :
  (bazel.env (self w) = None ->
   bazel.Build ctx out tags artifacts w = (Panic, w)) /\
  (forall e lb kube,
     bazel.env (self w) = Some e -> Name e = "local" ->
     bazel.adapt e = inr lb -> kubectx_CurrentContext = inr kube ->
     bazel.opts (self w) = None ->
     bazel.Build ctx out tags artifacts w = (Panic, logged CallCurrentContext w)) /\
  (forall o e,
     Name e <> "local" ->
     (bazel.Init o (Some e) ;;; bazel.Build ctx out tags artifacts) w =
       (Val ([], Some (New (Name e +:+ " is not a supported environment for builder bazel"))),
        {| store := store w; self := {| bazel.opts := o; bazel.env := Some e |};
           calls := calls w |})).
Proof.
  split; [|split].
  - intros He. unfold bazel.Build, bind, this, deref_opt. now rewrite He.
  - intros e lb kube He Hn Ha Hk Ho.
    rewrite (Build_dispatch ctx out tags artifacts e w He).
    rewrite bool_decide_eq_true_2 by exact Hn.
    unfold bazel.local, bind, this, deref_opt, log. rewrite He. simpl.
    rewrite Ha, Hk. simpl. now rewrite Ho.
  - intros o e Hn. unfold bind at 1, bazel.Init.
    rewrite (Build_dispatch ctx out tags artifacts e
               {| store := store w; self := {| bazel.opts := o; bazel.env := Some e |};
                  calls := calls w |} eq_refl).
    now rewrite bool_decide_eq_false_2 by exact Hn.
Qed.

(** X5. The delegated builder's answer is returned as it is.  Under the
    environment named "local", once the local builder is made and every
    artifact of the batch materializes, [Build] calls the delegated builder
    once, on a store in which every artifact of the batch carries a payload,
    and returns its results and its error unchanged and unwrapped. *)
Theorem Build_delegates_verbatim ctx out tags (artifacts : list ptr) e o lb kube builder w w1 :
  bazel.env (self w) = Some e ->
  Name e = "local" ->
  bazel.adapt e = inr lb ->
  kubectx_CurrentContext = inr kube ->
  bazel.opts (self w) = Some o ->
  local_NewBuilder lb kube (SkipTests o) = inr builder ->
  bazel.setArtifacts artifacts (prepared w) = (Val None, w1) ->
  let answer := local_Build builder ctx out tags (store w1) artifacts in
  bazel.Build ctx out tags artifacts w =
    (Val (snd answer),
     {| store := fst answer; self := self w; calls := calls w1 ++ [CallBuild artifacts] |}) /\
  Forall (materialized (store w1)) artifacts /\
  count is_build (calls (snd (bazel.Build ctx out tags artifacts w)))
    = S (count is_build (calls w)).
Proof.
  intros He Hn Ha Hk Ho Hb Hs answer.
  assert (HB : bazel.Build ctx out tags artifacts w =
                 (Val (snd answer),
                  {| store := fst answer; self := self w;
                     calls := calls w1 ++ [CallBuild artifacts] |})).
  { rewrite (Build_dispatch ctx out tags artifacts e w He).
    rewrite bool_decide_eq_true_2 by exact Hn.
    rewrite (local_prepared ctx out tags artifacts e o lb kube builder w He Ha Hk Ho Hb), Hs.
    destruct (setArtifacts_frame artifacts (prepared w)) as (Hself & _).
    rewrite Hs in Hself. cbn [snd] in Hself.
    unfold bazel.delegate. subst answer.
    destruct (local_Build builder ctx out tags (store w1) artifacts) as [st r].
    simpl. now rewrite Hself. }
  split; [exact HB|]. split; [exact (setArtifacts_materializes artifacts _ w1 Hs)|].
  rewrite HB. cbn [snd calls].
  destruct (setArtifacts_frame artifacts (prepared w)) as (_ & Hc & _).
  rewrite Hs in Hc. cbn [snd] in Hc.
  rewrite count_app, Hc, (prepared_count is_build w eq_refl eq_refl).
  unfold count at 2. simpl. lia.
Qed.

(** X6. A failure while the local builder is prepared ends [Build] before any
    artifact is looked at.  Each of the three steps returns its error wrapped
    with the name of the step; the store is as it was and no decode has run.
    A failed conversion is returned before any collaborator is called, a failed
    context lookup before the options are read. *)
Theorem Build_preparation_failure ctx out tags (artifacts : list ptr) e w :
  bazel.env (self w) = Some e ->
  Name e = "local" ->
  (forall cause,
     util.CloneThroughJSON (Properties e) = inl cause ->
     bazel.Build ctx out tags artifacts w =
       (Val ([], Some (Wrap cause "converting execution env to localBuild struct")), w)) /\
  (forall lb cause,
     bazel.adapt e = inr lb ->
     kubectx_CurrentContext = inl cause ->
     bazel.Build ctx out tags artifacts w =
       (Val ([], Some (Wrap cause "getting current cluster context")),
        logged CallCurrentContext w)) /\
  (forall lb kube o cause,
     bazel.adapt e = inr lb ->
     kubectx_CurrentContext = inr kube ->
     bazel.opts (self w) = Some o ->
     local_NewBuilder lb kube (SkipTests o) = inl cause ->
     bazel.Build ctx out tags artifacts w =
       (Val ([], Some (Wrap cause "getting local builder")), prepared w)).
Proof.
  intros He Hn.
  rewrite (Build_dispatch ctx out tags artifacts e w He).
  rewrite bool_decide_eq_true_2 by exact Hn.
  split; [|split].
  - intros cause Hc. unfold bazel.local, bind, this, deref_opt. rewrite He. simpl.
    unfold bazel.adapt. now rewrite Hc.
  - intros lb cause Ha Hk. unfold bazel.local, bind, this, deref_opt, log. rewrite He. simpl.
    now rewrite Ha, Hk.
  - intros lb kube o cause Ha Hk Ho Hb.
    unfold bazel.local, bind, this, deref_opt, log, prepared. rewrite He. simpl.
    rewrite Ha, Hk. simpl. rewrite Ho. simpl. now rewrite Hb.
Qed.

(** X7. The resolver memoizes the configuration, not the dependencies.  When
    a first call of the Bazel [DependenciesForArtifact] materializes the
    artifact, a second call, in whatever context, leaves the store as it is
    and logs one call only: the enumerator, asked again for the same
    workspace and the stored configuration.  No decode runs, and the second
    answer is made from what the enumerator says then. *)
Theorem DependenciesForArtifact_memoizes ctx ctx' l w w0 :
  bazel.setArtifact (Some l) w = (Val None, w0) ->
  let first := bazel.DependenciesForArtifact ctx (Some l) w in
  let second := bazel.DependenciesForArtifact ctx' (Some l) (snd first) in
  exists art a,
    store (snd first) !! l = Some art /\
    BazelArtifact_ (ArtifactType_ art) = Some a /\
    store (snd second) = store (snd first) /\
    calls (snd second) = calls (snd first) ++ [CallBazelGetDependencies (Workspace art) a] /\
    count is_decode (calls (snd second)) = count is_decode (calls (snd first)) /\
    fst second =
      match bazel_GetDependencies ctx' (Workspace art) a with
      | inl err => Val ([], Some (Wrap err "getting bazel dependencies"))
      | inr paths => Val (util.AbsolutePaths (Workspace art) paths, None)
      end.
Proof.
  intros Hs. cbv zeta.
  destruct (setArtifact_success (Some l) w w0 Hs) as (l0 & art0 & art & a & Hp & _ & Hl & Ha & _).
  injection Hp as <-. exists art, a.
  rewrite (DependenciesForArtifact_enumerates ctx l art a w w0 Hs Hl Ha). cbv zeta.
  set (w1 := logged (CallBazelGetDependencies (Workspace art) a) w0).
  assert (Hl1 : store w1 !! l = Some art) by exact Hl.
  pose proof (setArtifact_materialized l art a w1 Hl1 Ha) as Hs1.
  pose proof (DependenciesForArtifact_enumerates ctx' l art a w1 w1 Hs1 Hl1 Ha) as Hd.
  cbv zeta in Hd.
  assert (Hw : snd (match bazel_GetDependencies ctx (Workspace art) a with
                    | inl err => (Val ([] : list string, Some (Wrap err "getting bazel dependencies")), w1)
                    | inr paths => (Val (util.AbsolutePaths (Workspace art) paths, None), w1)
                    end) = w1)
    by now destruct (bazel_GetDependencies ctx (Workspace art) a).
  rewrite Hw, Hd.
  split; [exact Hl1|]. split; [exact Ha|].
  destruct (bazel_GetDependencies ctx' (Workspace art) a) as [err|paths];
    cbn [fst snd logged store calls];
    (split; [reflexivity|]; split; [reflexivity|]; split; [|reflexivity];
     rewrite count_app, count_one_other by reflexivity; lia).
Qed.

(** X8. The nil check of the resolver never fires.  A successful
    [setArtifact] leaves a payload on the artifact, so the Bazel
    [DependenciesForArtifact] never answers "bazel artifact is nil". *)
Theorem DependenciesForArtifact_nil_check_dead ctx (p : ptr) w :
  (forall w1, bazel.setArtifact p w = (Val None, w1) -> materialized (store w1) p) /\
  fst (bazel.DependenciesForArtifact ctx p w) <> Val ([], Some (New "bazel artifact is nil")).
Proof.
  split.
  - intros w1 Hs.
    destruct (setArtifact_success p w w1 Hs) as (l & art0 & art & a & -> & _ & Hl & Ha & _).
    exists l, art, a. auto.
  - destruct (bazel.setArtifact p w) as [[[err|]|] w1] eqn:Hs.
    + rewrite (DependenciesForArtifact_unmaterializable ctx p w w1 err Hs). cbn [fst].
      intros Heq. injection Heq as ->.
      destruct (setArtifact_errors p w _ w1 Hs) as [[cause Hc]|[Hc|[art Hc]]];
        try discriminate.
      injection Hc as Hc. apply (f_equal String.length) in Hc.
      rewrite length_append in Hc. simpl in Hc. lia.
    + destruct (setArtifact_success p w w1 Hs) as (l & art0 & art & a & -> & _ & Hl & Ha & _).
      rewrite (DependenciesForArtifact_enumerates ctx l art a w w1 Hs Hl Ha). cbv zeta.
      destruct (bazel_GetDependencies ctx (Workspace art) a); cbn [fst]; discriminate.
    + unfold bazel.DependenciesForArtifact, bind at 1. rewrite Hs. discriminate.
Qed.

(** X9. A failed batch is not rolled back.  When [Build] fails on an
    artifact of the batch, the artifacts before it keep the payload they were
    given, and the failing one has none. *)
Theorem Build_failure_keeps_earlier ctx out tags (pre post : list ptr) l e o lb kube builder
    w w1 w2 err :
  bazel.env (self w) = Some e ->
  Name e = "local" ->
  bazel.adapt e = inr lb ->
  kubectx_CurrentContext = inr kube ->
  bazel.opts (self w) = Some o ->
  local_NewBuilder lb kube (SkipTests o) = inr builder ->
  bazel.setArtifacts pre (prepared w) = (Val None, w1) ->
  bazel.setArtifact (Some l) w1 = (Val (Some err), w2) ->
  let after := snd (bazel.Build ctx out tags (pre ++ Some l :: post) w) in
  Forall (materialized (store after)) pre /\
  ~ materialized (store after) (Some l).
Proof.
  intros He Hn Ha Hk Ho Hb Hpre Hs after.
  destruct (setArtifact_failure (Some l) w1 err w2 Hs) as (Hst & l0 & art & Hp & Hl).
  injection Hp as <-.
  assert (Hl2 : store w2 !! l = Some art) by (now rewrite Hst).
  assert (Hafter : after = w2).
  { subst after. rewrite (Build_dispatch ctx out tags _ e w He).
    rewrite bool_decide_eq_true_2 by exact Hn.
    rewrite (local_prepared ctx out tags _ e o lb kube builder w He Ha Hk Ho Hb).
    rewrite (setArtifacts_app pre (Some l :: post) _ w1 Hpre).
    now rewrite (setArtifacts_stops l art err post w1 w2 Hs Hl2). }
  rewrite Hafter. split.
  - rewrite Hst. exact (setArtifacts_materializes pre _ w1 Hpre).
  - exact (setArtifact_failure_unmaterialized l w1 err w2 Hs).
Qed.

(** X10. Materializing a batch is idempotent, and a repeated pointer costs
    nothing.  After the loop of [local] has run to its end on a batch, running
    it again on the same batch succeeds and changes nothing, not even the call
    log; and the batch written twice over leaves the same world as the batch. *)
Theorem setArtifacts_idempotent (artifacts : list ptr) w w1 :
  bazel.setArtifacts artifacts w = (Val None, w1) ->
  bazel.setArtifacts artifacts w1 = (Val None, w1) /\
  bazel.setArtifacts (artifacts ++ artifacts) w = (Val None, w1).
Proof.
  intros Hs.
  pose proof (setArtifacts_materialized artifacts w1
                (setArtifacts_materializes artifacts w w1 Hs)) as Hagain.
  split; [exact Hagain|].
  now rewrite (setArtifacts_app artifacts artifacts w w1 Hs).
Qed.

(** X11. A nil artifact in the batch makes [Build] panic.  The artifacts
    before it have been materialized by then, the local builder has been made
    and the delegated builder is not called. *)
Theorem Build_nil_artifact_panics ctx out tags (pre post : list ptr) e o lb kube builder w w1 :
  bazel.env (self w) = Some e ->
  Name e = "local" ->
  bazel.adapt e = inr lb ->
  kubectx_CurrentContext = inr kube ->
  bazel.opts (self w) = Some o ->
  local_NewBuilder lb kube (SkipTests o) = inr builder ->
  bazel.setArtifacts pre (prepared w) = (Val None, w1) ->
  bazel.Build ctx out tags (pre ++ None :: post) w = (Panic, w1) /\
  Forall (materialized (store w1)) pre /\
  count is_build (calls w1) = count is_build (calls w).
Proof.
  intros He Hn Ha Hk Ho Hb Hpre.
  split; [|split].
  - rewrite (Build_dispatch ctx out tags _ e w He).
    rewrite bool_decide_eq_true_2 by exact Hn.
    rewrite (local_prepared ctx out tags _ e o lb kube builder w He Ha Hk Ho Hb).
    now rewrite (setArtifacts_app pre (None :: post) _ w1 Hpre).
  - exact (setArtifacts_materializes pre _ w1 Hpre).
  - destruct (setArtifacts_frame pre (prepared w)) as (_ & Hc & _).
    rewrite Hpre in Hc. cbn [snd] in Hc.
    now rewrite Hc, (prepared_count is_build w eq_refl eq_refl).
Qed.

End Further.

(** ** The claims on the scenarios *)

Import Scenario.

(** The specification's scenarios, run. *)
Example scenario_materialize :
  fst (bazel.setArtifact (Some 0) (local_world [app])) = Val None /\
  store (snd (bazel.setArtifact (Some 0) (local_world [app]))) !! 0
    = Some (prepopulated "//:app").
Proof. split; reflexivity. Qed.

Example scenario_dependencies :
  fst (bazel.DependenciesForArtifact ctx (Some 0) (local_world [app]))
    = Val (["/src/main.go"; "/src/BUILD"], None).
Proof. reflexivity. Qed.

Example scenario_build :
  fst (bazel.Build ctx out tags [Some 0] (local_world [app])) = Val (["app:latest"], None) /\
  count is_build (calls (snd (bazel.Build ctx out tags [Some 0] (local_world [app])))) = 1.
Proof. split; reflexivity. Qed.

(** C1, on an artifact that carries its payload. *)
Lemma setArtifact_idempotent_witness :
  store (local_world [prepopulated "//:app"]) !! 0 = Some (prepopulated "//:app") /\
  BazelArtifact_ (ArtifactType_ (prepopulated "//:app")) = Some {| BuildTarget := "//:app" |} /\
  bazel.setArtifact (Some 0) (local_world [prepopulated "//:app"])
    = (Val None, local_world [prepopulated "//:app"]).
Proof.
  split; [reflexivity|]. split; [reflexivity|].
  exact (proj1 (setArtifact_idempotent (H := collaborators) 0 (prepopulated "//:app") {| BuildTarget := "//:app" |}
                  (local_world [prepopulated "//:app"]) eq_refl eq_refl)).
Defined.

(** C2, on a batch of three whose second artifact has an empty build target. *)
Lemma Build_all_or_nothing_witness :
  fst (bazel.Build ctx out tags [Some 0; Some 1; Some 2] (local_world [app; untargeted; misspelt]))
    = Val ([], Some (Wrap (New "app must have an associated build target")
                       "setting artifact app")) /\
  count is_build
    (calls (snd (bazel.Build ctx out tags [Some 0; Some 1; Some 2]
                   (local_world [app; untargeted; misspelt])))) = 0 /\
  store (snd (bazel.Build ctx out tags [Some 0; Some 1; Some 2]
                (local_world [app; untargeted; misspelt]))) !! 2 = Some misspelt.
Proof.
  pose (w := local_world [app; untargeted; misspelt]).
  pose (w1 := snd (bazel.setArtifacts (H := collaborators) [Some 0] (prepared w))).
  pose (w2 := snd (bazel.setArtifact (H := collaborators) (Some 1) w1)).
  destruct (Build_all_or_nothing (H := collaborators) ctx out tags [Some 0] [Some 2] 1 untargeted
              {| Name := "local"; Properties := None |} {| SkipTests := false |}
              {| Push := false; UseDockerCLI := false |} "minikube"
              ({| Push := false; UseDockerCLI := false |}, "minikube", false)
              w w1 w2 (New "app must have an associated build target")
              eq_refl eq_refl eq_refl eq_refl eq_refl eq_refl eq_refl eq_refl eq_refl)
    as (HB & _ & _ & _ & Hc & _).
  split; [exact (f_equal fst HB)|]. split; [|reflexivity].
  exact (eq_trans (f_equal (fun r => count is_build (calls (snd r))) HB) Hc).
Defined.

(** C3, on contents with a misspelt field. *)
Lemma setArtifact_strict_decode_witness :
  yaml_unknown_field (list_byte_of_string "buildTraget: //:web") = true /\
  exists err : error,
    yaml_UnmarshalStrict (list_byte_of_string "buildTraget: //:web") = inl err /\
    bazel.setArtifact (Some 0) (local_world [misspelt]) =
      (Val (Some (Wrap err "unmarshalling bazel artifact")),
       logged (CallUnmarshalStrict (list_byte_of_string "buildTraget: //:web"))
         (local_world [misspelt])) /\
    store (snd (bazel.setArtifact (Some 0) (local_world [misspelt]))) !! 0 = Some misspelt.
Proof.
  split; [reflexivity|].
  exact (setArtifact_strict_decode (H := collaborators) 0 misspelt
           {| PluginName := "bazel"; Contents := list_byte_of_string "buildTraget: //:web" |}
           (local_world [misspelt]) eq_refl eq_refl eq_refl eq_refl).
Defined.

(** C4, on contents whose build target is the empty string. *)
Lemma setArtifact_requires_target_witness :
  yaml_UnmarshalStrict (list_byte_of_string "buildTarget: " ++ [x22; x22])
    = inr (Some {| BuildTarget := "" |}) /\
  exists err : error,
    bazel.setArtifact (Some 0) (local_world [untargeted]) =
      (Val (Some err),
       logged (CallUnmarshalStrict (list_byte_of_string "buildTarget: " ++ [x22; x22]))
         (local_world [untargeted])) /\
    Error err = "app must have an associated build target" /\
    mentions (Error err) "app" /\
    store (snd (bazel.setArtifact (Some 0) (local_world [untargeted]))) !! 0 = Some untargeted.
Proof.
  split; [reflexivity|].
  exact (setArtifact_requires_target (H := collaborators) 0 untargeted
           {| PluginName := "bazel";
              Contents := list_byte_of_string "buildTarget: " ++ [x22; x22] |}
           {| BuildTarget := "" |}
           (local_world [untargeted]) eq_refl eq_refl eq_refl eq_refl eq_refl).
Defined.

(** C5, under the environment "remote-unknown". *)
Lemma Build_rejects_unsupported_witness :
  bazel.Build ctx out tags [Some 0] (world (builder "remote-unknown") [app])
    = (Val ([], Some (New "remote-unknown is not a supported environment for builder bazel")),
       world (builder "remote-unknown") [app]) /\
  mentions "remote-unknown is not a supported environment for builder bazel" "remote-unknown".
Proof.
  destruct (proj2 (Build_rejects_unsupported (H := collaborators) ctx out tags [Some 0]
                     {| Name := "remote-unknown"; Properties := None |}
                     (world (builder "remote-unknown") [app]) eq_refl))
    as (HB & Hm & _); [discriminate|].
  split; [exact HB | exact Hm].
Defined.

(** C6, on the scenario's artifact under the relative workspace [src], with
    the working directory [/home/dev]. *)
Lemma DependenciesForArtifact_normalizes_witness :
  fst (bazel.DependenciesForArtifact ctx (Some 0) (local_world [relative]))
    = Val (["/home/dev/src/main.go"; "/home/dev/src/BUILD"], None) /\
  Forall (fun path => filepath.IsAbs path = true)
    ["/home/dev/src/main.go"; "/home/dev/src/BUILD"].
Proof.
  split; [reflexivity|].
  destruct (proj1 (DependenciesForArtifact_normalizes (H := collaborators) ctx (Some 0))
              (local_world [relative]) ["/home/dev/src/main.go"; "/home/dev/src/BUILD"]
              (snd (bazel.DependenciesForArtifact (H := collaborators) ctx (Some 0)
                      (local_world [relative])))
              eq_refl)
    as (l & art & a & raw & _ & _ & _ & _ & Habs & _).
  exact Habs.
Defined.

(** C7: the Bazel resolver, given an artifact that was never materialized,
    does not fail: it materializes the artifact and enumerates. *)
Lemma DependenciesForArtifact_unmaterialized_succeeds :
  BazelArtifact_ (ArtifactType_ app) = None /\
  fst (bazel.DependenciesForArtifact ctx (Some 0) (local_world [app]))
    = Val (["/src/main.go"; "/src/BUILD"], None) /\
  calls (snd (bazel.DependenciesForArtifact ctx (Some 0) (local_world [app])))
    = [CallUnmarshalStrict (list_byte_of_string "buildTarget: //:app");
       CallBazelGetDependencies "/src" {| BuildTarget := "//:app" |}].
Proof. repeat split. Qed.

(** C7 (as amended), on an artifact that cannot be materialized. *)
Lemma DependenciesForArtifact_materializes_witness :
  store (local_world [untargeted]) !! 0 = Some untargeted /\
  BazelArtifact_ (ArtifactType_ untargeted) = None /\
  fst (bazel.DependenciesForArtifact ctx (Some 0) (local_world [untargeted]))
    = Val ([], Some (New "app must have an associated build target")) /\
  count is_enumeration
    (calls (snd (bazel.DependenciesForArtifact ctx (Some 0) (local_world [untargeted])))) = 0.
Proof.
  split; [reflexivity|]. split; [reflexivity|].
  destruct (proj1 (DependenciesForArtifact_materializes (H := collaborators) ctx 0 untargeted
                     (local_world [untargeted]) eq_refl eq_refl)
              (New "app must have an associated build target")
              (snd (bazel.setArtifact (H := collaborators) (Some 0) (local_world [untargeted])))
              eq_refl)
    as [Hd Hc].
  split; [exact (f_equal fst Hd)|].
  exact (eq_trans (f_equal (fun r => count is_enumeration (calls (snd r))) Hd) Hc).
Defined.

(** C8: the Bazel resolver's error for a failing enumerator does not carry
    the image name. *)
Lemma DependenciesForArtifact_error_unnamed :
  ImageName missing = "app" /\
  fst (bazel.DependenciesForArtifact ctx (Some 0) (local_world [missing]))
    = Val ([], Some (Wrap (New "bazel query failed") "getting bazel dependencies")) /\
  Error (Wrap (New "bazel query failed") "getting bazel dependencies")
    = "getting bazel dependencies: bazel query failed" /\
  (mentions (Error (Wrap (New "bazel query failed") "getting bazel dependencies")) "app"
   -> False).
Proof.
  split; [reflexivity|]. split; [reflexivity|]. split; [reflexivity|].
  intros Hm. apply mentions_occurs in Hm. discriminate.
Qed.

(** C8 (as amended), on the artifact whose target the enumerator does not
    know, and on an artifact without Docker payload. *)
Lemma DependenciesForArtifact_enumerator_failure_witness :
  bazel_GetDependencies ctx "/src" {| BuildTarget := "//:missing" |}
    = inl (New "bazel query failed") /\
  fst (bazel.DependenciesForArtifact ctx (Some 0) (local_world [missing]))
    = Val ([], Some (Wrap (New "bazel query failed") "getting bazel dependencies")) /\
  fst (gcb.DependenciesForArtifact ctx (Some 0) (world {| gcb.skipTests := false |} [app]))
    = Val ([], Some (Wrap (New "reading dockerfile failed") "getting dependencies for app")).
Proof.
  pose proof (DependenciesForArtifact_enumerator_failure (H := collaborators) ctx 0)
    as [Hbazel Hgcb].
  split; [reflexivity|]. split.
  - exact (f_equal fst
             (proj1 (Hbazel (set_BazelArtifact missing (Some {| BuildTarget := "//:missing" |}))
                       {| BuildTarget := "//:missing" |}
                       (local_world [missing])
                       (snd (bazel.setArtifact (H := collaborators) (Some 0)
                               (local_world [missing])))
                       (New "bazel query failed") eq_refl eq_refl eq_refl eq_refl))).
  - exact (f_equal fst
             (proj1 (Hgcb app (world {| gcb.skipTests := false |} [app])
                       (New "reading dockerfile failed") eq_refl eq_refl))).
Defined.

(** C9, on an environment without properties. *)
Lemma adapt_defaults_on_absence_witness :
  Properties {| Name := "local"; Properties := None |} = None /\
  bazel.adapt {| Name := "local"; Properties := None |}
    = inr {| Push := false; UseDockerCLI := false |}.
Proof.
  split; [reflexivity|].
  exact (proj1 (adapt_defaults_on_absence (H := collaborators) {| Name := "local"; Properties := None |}
                  (or_introl eq_refl))).
Defined.

(** C10, on an artifact that arrives with an empty build target. *)
Lemma setArtifact_prepopulated_unchecked_witness :
  BuildTarget {| BuildTarget := "" |} = "" /\
  bazel.setArtifact (Some 0) (local_world [prepopulated ""])
    = (Val None, local_world [prepopulated ""]).
Proof.
  split; [reflexivity|].
  exact (proj1 (setArtifact_prepopulated_unchecked (H := collaborators) 0 (prepopulated "") {| BuildTarget := "" |}
                  (local_world [prepopulated ""]) eq_refl eq_refl eq_refl)).
Defined.

(** ** The further properties on the scenarios *)

(** X1, on the scenario's artifact. *)
Lemma setArtifact_stores_decoded_witness :
  yaml_UnmarshalStrict (list_byte_of_string "buildTarget: //:app")
    = inr (Some {| BuildTarget := "//:app" |}) /\
  exists art',
    store (snd (bazel.setArtifact (Some 0) (local_world [app; untargeted]))) !! 0 = Some art' /\
    BazelArtifact_ (ArtifactType_ art') = Some {| BuildTarget := "//:app" |} /\
    store (snd (bazel.setArtifact (Some 0) (local_world [app; untargeted]))) !! 1
      = Some untargeted.
Proof.
  split; [reflexivity|].
  destruct (setArtifact_stores_decoded (H := collaborators) 0 app
              {| PluginName := "bazel"; Contents := list_byte_of_string "buildTarget: //:app" |}
              {| BuildTarget := "//:app" |} (local_world [app; untargeted])
              eq_refl eq_refl eq_refl eq_refl ltac:(discriminate))
    as (art' & _ & Ha & _ & _ & _ & _ & Hl & Hother).
  exists art'. split; [exact Hl|]. split; [exact Ha|].
  exact (eq_trans (Hother 1 ltac:(discriminate)) eq_refl).
Defined.

(** X2, on an artifact with empty contents. *)
Lemma setArtifact_nil_document_witness :
  yaml_UnmarshalStrict [] = inr None /\
  bazel.setArtifact (Some 0) (local_world [artifact "app" "/src" []])
    = (Val (Some (New "artifact is nil")),
       logged (CallUnmarshalStrict []) (local_world [artifact "app" "/src" []])).
Proof.
  split; [reflexivity|].
  exact (proj1 (setArtifact_nil_document (H := collaborators) 0 (artifact "app" "/src" [])
                  {| PluginName := "bazel"; Contents := [] |}
                  (local_world [artifact "app" "/src" []])
                  eq_refl eq_refl eq_refl eq_refl)).
Defined.

(** X3, on a store of two artifacts: materializing the second leaves the
    first, which has a payload, as it is. *)
Lemma setArtifact_only_adds_witness :
  store (local_world [prepopulated "//:lib"; app]) !! 0 = Some (prepopulated "//:lib") /\
  store (snd (bazel.setArtifact (Some 1) (local_world [prepopulated "//:lib"; app]))) !! 0
    = Some (prepopulated "//:lib").
Proof.
  split; [reflexivity|].
  destruct (setArtifact_only_adds (H := collaborators) (Some 1)
              (local_world [prepopulated "//:lib"; app]) 0 (prepopulated "//:lib") eq_refl)
    as (art'' & Hl & _ & _ & _ & _ & Hsame).
  exact (eq_trans Hl (f_equal Some (Hsame {| BuildTarget := "//:lib" |} eq_refl))).
Defined.

(** X4, on a new builder and on one initialized for "remote-unknown". *)
Lemma Build_needs_Init_witness :
  bazel.Build ctx out tags [Some 0] (world bazel.NewBuilder [app])
    = (Panic, world bazel.NewBuilder [app]) /\
  fst ((bazel.Init (Some {| SkipTests := false |})
          (Some {| Name := "remote-unknown"; Properties := None |}) ;;;
        bazel.Build ctx out tags [Some 0]) (world bazel.NewBuilder [app]))
    = Val ([], Some (New "remote-unknown is not a supported environment for builder bazel")).
Proof.
  pose proof (Build_needs_Init (H := collaborators) ctx out tags [Some 0]
                (world bazel.NewBuilder [app])) as (Hnew & _ & Hinit).
  split; [exact (Hnew eq_refl)|].
  exact (f_equal fst (Hinit (Some {| SkipTests := false |})
                        {| Name := "remote-unknown"; Properties := None |}
                        ltac:(discriminate))).
Defined.

(** X5, on the scenario's build. *)
Lemma Build_delegates_verbatim_witness :
  fst (bazel.Build ctx out tags [Some 0] (local_world [app])) = Val (["app:latest"], None) /\
  count is_build (calls (snd (bazel.Build ctx out tags [Some 0] (local_world [app])))) = 1.
Proof.
  pose proof (Build_delegates_verbatim (H := collaborators) ctx out tags [Some 0]
                {| Name := "local"; Properties := None |} {| SkipTests := false |}
                {| Push := false; UseDockerCLI := false |} "minikube"
                ({| Push := false; UseDockerCLI := false |}, "minikube", false)
                (local_world [app])
                (snd (bazel.setArtifacts (H := collaborators) [Some 0]
                        (prepared (local_world [app]))))
                eq_refl eq_refl eq_refl eq_refl eq_refl eq_refl eq_refl) as Hx.
  cbv zeta in Hx. destruct Hx as (HB & _ & Hc).
  split; [exact (f_equal fst HB) | exact Hc].
Defined.

(** X6, on an environment whose [push] property is not a boolean. *)
Lemma Build_preparation_failure_witness :
  bazel.Build ctx out tags [Some 0]
    (world {| bazel.opts := Some {| SkipTests := false |};
              bazel.env := Some {| Name := "local";
                                   Properties := Some [("push", VString "yes")] |} |}
       [app])
  = (Val ([], Some (Wrap (New "json: cannot unmarshal into Go struct field LocalBuild.push of type bool")
                      "converting execution env to localBuild struct")),
     world {| bazel.opts := Some {| SkipTests := false |};
              bazel.env := Some {| Name := "local";
                                   Properties := Some [("push", VString "yes")] |} |}
       [app]).
Proof.
  exact (proj1 (Build_preparation_failure (H := collaborators) ctx out tags [Some 0]
                  {| Name := "local"; Properties := Some [("push", VString "yes")] |}
                  (world {| bazel.opts := Some {| SkipTests := false |};
                            bazel.env := Some {| Name := "local";
                                                 Properties := Some [("push", VString "yes")] |} |}
                     [app])
                  eq_refl eq_refl)
           (New "json: cannot unmarshal into Go struct field LocalBuild.push of type bool")
           eq_refl).
Defined.

(** X7, on the scenario's artifact resolved twice. *)
Lemma DependenciesForArtifact_memoizes_witness :
  store (snd (bazel.DependenciesForArtifact ctx (Some 0)
                (snd (bazel.DependenciesForArtifact ctx (Some 0) (local_world [app])))))
    = store (snd (bazel.DependenciesForArtifact ctx (Some 0) (local_world [app]))) /\
  count is_decode
    (calls (snd (bazel.DependenciesForArtifact ctx (Some 0)
                   (snd (bazel.DependenciesForArtifact ctx (Some 0) (local_world [app]))))))
    = 1.
Proof.
  pose proof (DependenciesForArtifact_memoizes (H := collaborators) ctx ctx 0
                (local_world [app])
                (snd (bazel.setArtifact (H := collaborators) (Some 0) (local_world [app])))
                eq_refl) as Hx.
  cbv zeta in Hx. destruct Hx as (art & a & _ & _ & Hst & _ & Hd & _).
  split; [exact Hst | exact (eq_trans Hd eq_refl)].
Defined.

(** X8, on the scenario's artifact. *)
Lemma DependenciesForArtifact_nil_check_dead_witness :
  materialized (store (snd (bazel.setArtifact (Some 0) (local_world [app])))) (Some 0).
Proof.
  exact (proj1 (DependenciesForArtifact_nil_check_dead (H := collaborators) ctx (Some 0)
                  (local_world [app]))
           (snd (bazel.setArtifact (H := collaborators) (Some 0) (local_world [app])))
           eq_refl).
Defined.

(** X9, on the batch of three whose second artifact fails. *)
Lemma Build_failure_keeps_earlier_witness :
  Forall (materialized
            (store (snd (bazel.Build ctx out tags [Some 0; Some 1; Some 2]
                           (local_world [app; untargeted; misspelt])))))
    [Some 0] /\
  ~ materialized
      (store (snd (bazel.Build ctx out tags [Some 0; Some 1; Some 2]
                     (local_world [app; untargeted; misspelt]))))
      (Some 1).
Proof.
  pose (w := local_world [app; untargeted; misspelt]).
  pose (w1 := snd (bazel.setArtifacts (H := collaborators) [Some 0] (prepared w))).
  pose (w2 := snd (bazel.setArtifact (H := collaborators) (Some 1) w1)).
  exact (Build_failure_keeps_earlier (H := collaborators) ctx out tags [Some 0] [Some 2] 1
           {| Name := "local"; Properties := None |} {| SkipTests := false |}
           {| Push := false; UseDockerCLI := false |} "minikube"
           ({| Push := false; UseDockerCLI := false |}, "minikube", false)
           w w1 w2 (New "app must have an associated build target")
           eq_refl eq_refl eq_refl eq_refl eq_refl eq_refl eq_refl eq_refl).
Defined.

(** X10, on a batch that names the same artifact twice. *)
Lemma setArtifacts_idempotent_witness :
  bazel.setArtifacts [Some 0; Some 0] (local_world [app])
    = (Val None, snd (bazel.setArtifacts [Some 0] (local_world [app]))) /\
  count is_decode (calls (snd (bazel.setArtifacts [Some 0; Some 0] (local_world [app])))) = 1.
Proof.
  pose proof (proj2 (setArtifacts_idempotent (H := collaborators) [Some 0] (local_world [app])
                       (snd (bazel.setArtifacts (H := collaborators) [Some 0]
                               (local_world [app])))
                       eq_refl)) as Hx.
  split; [exact Hx | reflexivity].
Defined.

(** X11, on a batch whose second pointer is nil. *)
Lemma Build_nil_artifact_panics_witness :
  fst (bazel.Build ctx out tags [Some 0; None] (local_world [app])) = Panic /\
  count is_build (calls (snd (bazel.Build ctx out tags [Some 0; None] (local_world [app])))) = 0.
Proof.
  pose proof (Build_nil_artifact_panics (H := collaborators) ctx out tags [Some 0] []
                {| Name := "local"; Properties := None |} {| SkipTests := false |}
                {| Push := false; UseDockerCLI := false |} "minikube"
                ({| Push := false; UseDockerCLI := false |}, "minikube", false)
                (local_world [app])
                (snd (bazel.setArtifacts (H := collaborators) [Some 0]
                        (prepared (local_world [app]))))
                eq_refl eq_refl eq_refl eq_refl eq_refl eq_refl eq_refl) as (HB & _ & Hc).
  split; [exact (f_equal fst HB)|].
  exact (eq_trans (f_equal (fun r => count is_build (calls (snd r))) HB) Hc).
Defined.
